(** * EcoVision AI service: the detection-to-taxonomy pipeline

    A shallow embedding of the Python service under [src/ai_service]:
    the class mapper ([inference/mapper.py]), the base64 image codec
    ([utils/image_io.py]), the detector and segmenter adapters
    ([inference/detector.py], [inference/segmenter.py]) and the request
    handler of [main.py], followed by the properties of the
    specification that concern them.

    Conventions.
    - A Python [str] is a Rocq [string], one character per code point
      below 256; [bytes] is a list of integers, each meant in [0, 256).
    - A Python [dict] whose iteration order matters (the static tables
      of the mapper) is an association list in definition order; a dict
      that is only looked up (a detection) is a [gmap].
    - Code that can raise returns a [result]; code that calls into a
      model runtime threads an abstract world state. *)

From Stdlib Require Import ZArith List String Ascii Floats Lia Bool.
From stdpp Require Import base gmap strings list pretty.
Import ListNotations.
Local Open Scope string_scope.
Local Open Scope list_scope.
Local Open Scope Z_scope.

(** ** Python values, exceptions and results *)

#[warnings="-register-all"]
Inductive pyval : Type :=
| VNone
| VStr (s : string)
| VInt (z : Z)
| VFloat (f : float)
| VList (l : list pyval).

Inductive exn_class : Set :=
| ImportError
| AttributeError
| ValueError
| KeyError
| IndexError
| TypeError
| RuntimeError
| NotImplementedError
| FileNotFoundError
| OtherException.

(** [Exn c msg] is an instance of the built-in class [c] whose [str()]
    is [msg]; [HTTPException] is FastAPI's. *)
Inductive exn : Type :=
| Exn (c : exn_class) (msg : string)
| HTTPException (status_code : Z) (detail : string).

Inductive result (A : Type) : Type :=
| Ok (a : A)
| Raise (e : exn).
Arguments Ok {A} a.
Arguments Raise {A} e.

Definition str_exn (e : exn) : string :=
  match e with
  | Exn _ msg => msg
  | HTTPException _ detail => detail
  end.

Definition is_class (c : exn_class) (e : exn) : bool :=
  match e with
  | Exn c' _ =>
      match c, c' with
      | ImportError, ImportError | AttributeError, AttributeError
      | ValueError, ValueError | KeyError, KeyError
      | IndexError, IndexError | TypeError, TypeError
      | RuntimeError, RuntimeError
      | NotImplementedError, NotImplementedError
      | FileNotFoundError, FileNotFoundError
      | OtherException, OtherException => true
      | _, _ => false
      end
  | HTTPException _ _ => false
  end.

Definition bytes := list Z.

Definition is_byte (b : Z) : Prop := 0 <= b < 256.

(** ** String primitives *)

Module Str.

(** [str.lower()] on code points below 256: the ASCII capitals and the
    Latin-1 capitals (U+00C0..U+00DE without the multiplication sign)
    move up by 32. *)
Definition lower_char (c : ascii) : ascii :=
  let n := N_of_ascii c in
  if (((65 <=? n) && (n <=? 90))
      || ((192 <=? n) && (n <=? 222) && negb (n =? 215)))%N
  then ascii_of_N (n + 32)
  else c.

Fixpoint lower (s : string) : string :=
  match s with
  | EmptyString => EmptyString
  | String c s' => String (lower_char c) (lower s')
  end.

Fixpoint startswith (p s : string) : bool :=
  match p, s with
  | EmptyString, _ => true
  | String _ _, EmptyString => false
  | String a p', String b s' => Ascii.eqb a b && startswith p' s'
  end.

(** [sub in s] on strings: [sub] occurs in [s] as a contiguous run. *)
Fixpoint contains (sub s : string) : bool :=
  startswith sub s
  || match s with
     | EmptyString => false
     | String _ s' => contains sub s'
     end.

(** [c in s] for a single character. *)
Fixpoint has_char (c : ascii) (s : string) : bool :=
  match s with
  | EmptyString => false
  | String a s' => Ascii.eqb a c || has_char c s'
  end.

(** Truthiness of an optional string: [None] and [""] are falsy. *)
Definition truthy (o : option string) : bool :=
  match o with
  | Some s => negb (String.eqb s "")
  | None => false
  end.

End Str.

(** [d.get(k)] on a dict kept as an association list. *)
Fixpoint dict_get {V : Type} (d : list (string * V)) (k : string) : option V :=
  match d with
  | [] => None
  | (k', v) :: d' => if String.eqb k' k then Some v else dict_get d' k
  end.

(** ** inference/mapper.py *)

Module Mapper.

Definition class_mapping : list (string * string) :=
  [ ("bottle", "plastic_bottle");
    ("plastic_bottle", "plastic_bottle");
    ("water_bottle", "plastic_bottle");
    ("pet_bottle", "plastic_bottle");
    ("wrapper", "plastic_wrapper");
    ("plastic_wrapper", "plastic_wrapper");
    ("bag", "plastic_wrapper");
    ("plastic_bag", "plastic_wrapper");
    ("cup", "paper_cup");
    ("paper_cup", "paper_cup");
    ("paper", "paper_cup");
    ("cardboard", "cardboard_box");
    ("cardboard_box", "cardboard_box");
    ("box", "cardboard_box");
    ("food", "food_waste");
    ("food_waste", "food_waste");
    ("organic", "food_waste");
    ("banana", "food_waste");
    ("apple", "food_waste");
    ("glass", "glass_bottle");
    ("glass_bottle", "glass_bottle");
    ("bottle_glass", "glass_bottle");
    ("can", "metal_can");
    ("metal_can", "metal_can");
    ("aluminum", "metal_can");
    ("tin", "metal_can");
    ("cloth", "cloth");
    ("fabric", "cloth");
    ("textile", "cloth");
    ("clothing", "cloth") ].

Definition disposal_instructions : list (string * string) :=
  [ ("plastic_bottle",
     "Rinse and place in recycling bin. Remove caps if required locally.");
    ("plastic_wrapper",
     "Check local guidelines. Most thin plastic wrappers go in general waste.");
    ("paper_cup",
     "Remove plastic lining if possible. Place in paper recycling or general waste.");
    ("food_waste",
     "Compost if available, otherwise place in organic waste bin.");
    ("glass_bottle",
     "Rinse and place in glass recycling bin. Remove labels if required.");
    ("metal_can",
     "Rinse and place in metal recycling bin. Crush to save space.");
    ("cardboard_box",
     "Flatten and place in paper/cardboard recycling bin.");
    ("cloth",
     "Donate if usable, otherwise place in textile recycling or general waste.") ].

Definition reuse_ideas : list (string * list string) :=
  [ ("plastic_bottle",
     [ "Cut and use as plant propagation containers";
       "Create DIY watering globes for potted plants";
       "Transform into storage containers for small items" ]);
    ("plastic_wrapper",
     [ "Use as protective wrap for fragile items during moving";
       "Create DIY waterproof covers for outdoor items";
       "Repurpose as temporary storage bags" ]);
    ("paper_cup",
     [ "Use as seed starter pots (biodegradable)";
       "Create small organizers for desk supplies";
       "Use for arts and crafts projects" ]);
    ("food_waste",
     [ "Compost to create nutrient-rich soil";
       "Use vegetable scraps to make homemade stock";
       "Regrow vegetables from scraps (e.g., green onions, lettuce)" ]);
    ("glass_bottle",
     [ "Repurpose as decorative vases or candle holders";
       "Use for storing homemade preserves or oils";
       "Create DIY table lamps or pendant lights" ]);
    ("metal_can",
     [ "Use as planters for small herbs or succulents";
       "Create rustic utensil holders or organizers";
       "Transform into candle lanterns with decorative holes" ]);
    ("cardboard_box",
     [ "Use as drawer dividers or closet organizers";
       "Create storage boxes for seasonal items";
       "Repurpose as play structures or forts for children" ]);
    ("cloth",
     [ "Cut into rags for cleaning";
       "Create patchwork quilts or blankets";
       "Transform into reusable shopping bags or totes" ]) ].

Definition dustbin_mapping : list (string * string) :=
  [ ("plastic_bottle", "Blue Bin");
    ("plastic_wrapper", "Red Bin");
    ("paper_cup", "Blue Bin");
    ("food_waste", "Green Bin");
    ("glass_bottle", "Blue Bin");
    ("metal_can", "Blue Bin");
    ("cardboard_box", "Blue Bin");
    ("cloth", "Yellow Bin") ].

(** The partial-matching loop of [map_detection]: the first item, in
    table order, whose key contains the label or is contained in it
    assigns its value and breaks; without a match the variable keeps
    the value [w] it had. *)
Fixpoint partial_match (items : list (string * string)) (raw_class : string)
    (w : option string) : option string :=
  match items with
  | [] => w
  | (key, value) :: rest =>
      if Str.contains key raw_class || Str.contains raw_class key
      then Some value
      else partial_match rest raw_class w
  end.

(** Lines 143-156: from the lowercased label to the waste class. *)
Definition resolve_class (raw_class : string) : string :=
  let waste_class := dict_get class_mapping raw_class in
  let waste_class :=
    if Str.truthy waste_class then waste_class
    else partial_match class_mapping raw_class waste_class in
  match waste_class with
  | Some c => if Str.truthy waste_class then c else "plastic_bottle"
  | None => "plastic_bottle"
  end.

(** [detection.get(key, dflt)]. *)
Definition det_get (detection : gmap string pyval) (key : string)
    (dflt : pyval) : pyval :=
  default dflt (detection !! key).

Definition map_detection (detection : gmap string pyval)
    : result (gmap string pyval) :=
  match det_get detection "class_name" (VStr "") with
  | VStr s =>
      let raw_class := Str.lower s in
      let waste_class := resolve_class raw_class in
      Ok (<["class" := VStr waste_class]>
          (<["confidence" := det_get detection "confidence" (VFloat 0)]>
          (<["bbox" :=
               det_get detection "bbox" (VList [VInt 0; VInt 0; VInt 0; VInt 0])]>
          (<["class_id" := det_get detection "class_id" (VInt 0)]>
          (<["disposal" :=
               VStr (default "Check local guidelines."
                       (dict_get disposal_instructions waste_class))]>
          (<["ideas" :=
               VList (map VStr (default [] (dict_get reuse_ideas waste_class)))]>
          (<["dustbin" :=
               VStr (default "Blue Bin" (dict_get dustbin_mapping waste_class))]>
           ∅)))))))
  | _ => Raise (Exn AttributeError "object has no attribute 'lower'")
  end.

Definition get_all_classes : list string := map fst disposal_instructions.

End Mapper.

(** ** The standard library's base64 codec, as [utils/image_io.py] uses it *)

Module Base64.

Definition alphabet : string :=
  "ABCDEFGHIJKLMNOPQRSTUVWXYZabcdefghijklmnopqrstuvwxyz0123456789+/".

Definition BASE64_PAD : ascii := "="%char.

(** [table_b2a_base64[i]]. *)
Definition table_b2a (i : Z) : ascii :=
  match String.get (Z.to_nat i) alphabet with
  | Some c => c
  | None => BASE64_PAD
  end.

(** [table_a2b_base64[c]]: the 6-bit value of an alphabet character,
    [None] for any other character. *)
Definition table_a2b (c : ascii) : option Z :=
  let n := Z.of_N (N_of_ascii c) in
  if (65 <=? n) && (n <=? 90) then Some (n - 65)
  else if (97 <=? n) && (n <=? 122) then Some (n - 71)
  else if (48 <=? n) && (n <=? 57) then Some (n + 4)
  else if n =? 43 then Some 62
  else if n =? 47 then Some 63
  else None.

(** [base64.b64encode(s).decode("utf-8")]: RFC 4648 section 4, three
    bytes to four characters, the tail padded with ['=']. *)
Fixpoint b64encode (s : bytes) : string :=
  match s with
  | [] => EmptyString
  | [a] =>
      String (table_b2a (Z.shiftr a 2))
        (String (table_b2a (Z.shiftl (Z.land a 3) 4))
           (String BASE64_PAD (String BASE64_PAD EmptyString)))
  | [a; b] =>
      String (table_b2a (Z.shiftr a 2))
        (String (table_b2a (Z.lor (Z.shiftl (Z.land a 3) 4) (Z.shiftr b 4)))
           (String (table_b2a (Z.shiftl (Z.land b 15) 2))
              (String BASE64_PAD EmptyString)))
  | a :: b :: c :: rest =>
      String (table_b2a (Z.shiftr a 2))
        (String (table_b2a (Z.lor (Z.shiftl (Z.land a 3) 4) (Z.shiftr b 4)))
           (String (table_b2a (Z.lor (Z.shiftl (Z.land b 15) 2) (Z.shiftr c 6)))
              (String (table_b2a (Z.land c 63)) (b64encode rest))))
  end.

(** The decoding loop of [binascii.a2b_base64] in its default,
    non-strict mode: characters outside the alphabet are skipped, a
    complete pad sequence ends the input, and a dangling group is an
    error (the count of characters is left out of its message).
    [bin_data] is the output written so far. *)
Fixpoint a2b_loop (ascii_data : string) (quad_pos leftchar pads : Z)
    (bin_data : bytes) : result bytes :=
  match ascii_data with
  | EmptyString =>
      if quad_pos =? 0 then Ok bin_data
      else if quad_pos =? 1
      then Raise (Exn ValueError
             "Invalid base64-encoded string: number of data characters cannot be 1 more than a multiple of 4")
      else Raise (Exn ValueError "Incorrect padding")
  | String this_ch rest =>
      if Ascii.eqb this_ch BASE64_PAD then
        if (2 <=? quad_pos) && (4 <=? quad_pos + (pads + 1))
        then Ok bin_data
        else a2b_loop rest quad_pos leftchar
               (if 2 <=? quad_pos then pads + 1 else pads) bin_data
      else
        match table_a2b this_ch with
        | None => a2b_loop rest quad_pos leftchar pads bin_data
        | Some v =>
            if quad_pos =? 0 then a2b_loop rest 1 v 0 bin_data
            else if quad_pos =? 1 then
              a2b_loop rest 2 (Z.land v 15) 0
                (bin_data
                 ++ [Z.land (Z.lor (Z.shiftl leftchar 2) (Z.shiftr v 4)) 255])
            else if quad_pos =? 2 then
              a2b_loop rest 3 (Z.land v 3) 0
                (bin_data
                 ++ [Z.land (Z.lor (Z.shiftl leftchar 4) (Z.shiftr v 2)) 255])
            else
              a2b_loop rest 0 0 0
                (bin_data ++ [Z.land (Z.lor (Z.shiftl leftchar 6) v) 255])
        end
  end.

Definition a2b_base64 (data : string) : result bytes :=
  a2b_loop data 0 0 0 [].

Definition is_ascii (c : ascii) : bool := (N_of_ascii c <? 128)%N.

Fixpoint all_ascii (s : string) : bool :=
  match s with
  | EmptyString => true
  | String c s' => is_ascii c && all_ascii s'
  end.

(** [base64.b64decode(s)] on a [str] argument: the string must be
    ASCII, then [a2b_base64] decodes it. *)
Definition b64decode (s : string) : result bytes :=
  if all_ascii s then a2b_base64 s
  else Raise (Exn ValueError
                "string argument should contain only ASCII characters").

End Base64.

(** ** utils/image_io.py *)

Module ImageIO.

(** [str.isspace] on code points below 256. *)
Definition is_space (c : ascii) : bool :=
  let n := N_of_ascii c in
  (((9 <=? n) && (n <=? 13)) || ((28 <=? n) && (n <=? 32))
   || (n =? 133) || (n =? 160))%N.

Fixpoint lstrip (s : string) : string :=
  match s with
  | EmptyString => EmptyString
  | String c s' => if is_space c then lstrip s' else s
  end.

Fixpoint rstrip (s : string) : string :=
  match s with
  | EmptyString => EmptyString
  | String c s' =>
      match rstrip s' with
      | EmptyString => if is_space c then EmptyString else String c EmptyString
      | r => String c r
      end
  end.

Definition strip (s : string) : string := rstrip (lstrip s).

(** [s.split(sep)] for a one-character separator. *)
Fixpoint split (sep : ascii) (s : string) : list string :=
  match s with
  | EmptyString => [EmptyString]
  | String c s' =>
      if Ascii.eqb c sep then EmptyString :: split sep s'
      else
        match split sep s' with
        | hd :: tl => String c hd :: tl
        | [] => [String c EmptyString]
        end
  end.

Definition decode_image (base64_string : string) : result bytes :=
  let split_result :=
    if Str.has_char ","%char base64_string
    then
      match split ","%char base64_string with
      | _ :: payload :: _ => Ok payload
      | _ => Raise (Exn IndexError "list index out of range")
      end
    else Ok base64_string in
  match split_result with
  | Raise e => Raise e
  | Ok base64_string =>
      let base64_string := strip base64_string in
      match Base64.b64decode base64_string with
      | Ok image_bytes => Ok image_bytes
      | Raise e =>
          Raise (Exn ValueError ("Failed to decode base64 image: " +:+ str_exn e))
      end
  end.

Definition encode_image_to_base64 (image_bytes : bytes) (format : string)
    : string :=
  let base64_str := Base64.b64encode image_bytes in
  let mime_type := "image/" +:+ Str.lower format in
  "data:" +:+ mime_type +:+ ";base64," +:+ base64_str.

End ImageIO.

Example lower_PNG : Str.lower "PNG" = "png".
Proof. reflexivity. Qed.

Example b64_hello :
  Base64.b64encode [72; 101; 108; 108; 111] = "SGVsbG8=".
Proof. reflexivity. Qed.

Example decode_hello :
  ImageIO.decode_image "data:image/png;base64,SGVsbG8=" = Ok [72; 101; 108; 108; 111].
Proof. reflexivity. Qed.

Example decode_hello_ws :
  ImageIO.decode_image " SGVs bG8= " = Ok [72; 101; 108; 108; 111].
Proof. reflexivity. Qed.

Example map_spaceship : Mapper.resolve_class "spaceship" = "plastic_bottle".
Proof. reflexivity. Qed.

Example map_empty : Mapper.resolve_class "" = "plastic_bottle".
Proof. reflexivity. Qed.

Example map_teacup : Mapper.resolve_class "teacup" = "paper_cup".
Proof. reflexivity. Qed.

(** ** Effects: state passing with exceptions

    A computation that may call into a model runtime takes the state
    [S] it runs in and returns its outcome with the state it leaves;
    the state survives a raised exception. *)

Definition M (S A : Type) : Type := S -> result A * S.

Definition ret {S A : Type} (a : A) : M S A := fun s => (Ok a, s).

Definition raise {S A : Type} (e : exn) : M S A := fun s => (Raise e, s).

Definition lift {S A : Type} (r : result A) : M S A := fun s => (r, s).

Definition bind {S A B : Type} (c : M S A) (k : A -> M S B) : M S B :=
  fun s =>
    match c s with
    | (Ok a, s') => k a s'
    | (Raise e, s') => (Raise e, s')
    end.

(** [try: c except Exception as e: h e]. *)
Definition try_except {S A : Type} (c : M S A) (h : exn -> M S A) : M S A :=
  fun s =>
    match c s with
    | (Ok a, s') => (Ok a, s')
    | (Raise e, s') => h e s'
    end.

Notation "'let*' x ':=' c 'in' k" := (bind c (fun x => k))
  (at level 10, x pattern, c at level 100, k at level 200).

(** ** inference/detector.py *)

Module Detector.

(** The adapter object ([self]). *)
Record t (Model : Type) : Type := mk {
  device : string;
  model : option Model;
  model_name : option string;
  conf_threshold : float;
  iou_threshold : float
}.
Arguments mk {Model}.
Arguments device {Model}.
Arguments model {Model}.
Arguments model_name {Model}.
Arguments conf_threshold {Model}.
Arguments iou_threshold {Model}.

(** What the adapter reaches outside itself: the file system, the
    [ultralytics] and [torch] packages and the loaded model.  [infer]
    stands for lines 141-176 of [detect]: decoding the image, running
    the model with the thresholds and the device, and turning the
    boxes into detection dicts. *)
Record Env (W Model : Type) : Type := mkEnv {
  cuda_is_available : bool;
  default_model_path : string;
  path_exists : string -> bool;
  import_YOLO : M W unit;
  YOLO : string -> M W Model;
  hasattr_names : Model -> result bool;
  import_YOLOv10 : M W unit;
  YOLOv10 : string -> M W Model;
  torch_load : string -> string -> M W unit;
  infer : Model -> bytes -> float -> float -> string
          -> M W (list (gmap string pyval))
}.
Arguments cuda_is_available {W Model}.
Arguments default_model_path {W Model}.
Arguments path_exists {W Model}.
Arguments import_YOLO {W Model}.
Arguments YOLO {W Model}.
Arguments hasattr_names {W Model}.
Arguments import_YOLOv10 {W Model}.
Arguments YOLOv10 {W Model}.
Arguments torch_load {W Model}.
Arguments infer {W Model}.

Section Adapter.
Context {W Model : Type} (env : Env W Model).

(** While the constructor runs, the state is the world together with
    the object under construction. *)
Definition world (c : M W unit) : M (W * t Model) unit :=
  fun s =>
    match c (fst s) with
    | (r, w') => (r, (w', snd s))
    end.

Definition world_model (c : M W Model) : M (W * t Model) Model :=
  fun s =>
    match c (fst s) with
    | (r, w') => (r, (w', snd s))
    end.

(** [self.model = m]. *)
Definition set_model (m : Model) : M (W * t Model) unit :=
  fun s =>
    let self := snd s in
    (Ok tt, (fst s, mk (device self) (Some m) (model_name self)
                       (conf_threshold self) (iou_threshold self))).

(** [self.model_name = n]. *)
Definition set_model_name (n : string) : M (W * t Model) unit :=
  fun s =>
    let self := snd s in
    (Ok tt, (fst s, mk (device self) (model self) (Some n)
                       (conf_threshold self) (iou_threshold self))).

Definition _detect_device : string :=
  if cuda_is_available env then "cuda" else "cpu".

Definition _load_yolov8_fallback : M (W * t Model) unit :=
  try_except
    (let* _ := world (import_YOLO env) in
     let* m := world_model (YOLO env "yolov8n.pt") in
     let* _ := set_model m in
     set_model_name "yolov8n")
    (fun e =>
       if is_class ImportError e
       then raise (Exn RuntimeError
              "ultralytics package not installed. Install with: pip install ultralytics")
       else raise (Exn RuntimeError
              ("Failed to load YOLOv8 fallback: " +:+ str_exn e))).

(** Lines 63-92 of [_load_yolov10], the [try] around the ultralytics
    loaders: [true] when it leaves by a [return], the model loaded as
    YOLOv10; [false] when control goes on to the direct torch load. *)
Definition _load_yolov10_try (model_path : string) : M (W * t Model) bool :=
  try_except
    (let* _ := world (import_YOLO env) in
     try_except
       (let* m := world_model (YOLO env model_path) in
        let* _ := set_model m in
        let* has_names := lift (hasattr_names env m) in
        if has_names : bool
        then let* _ := set_model_name "yolov10e" in ret true
        else ret false)
       (fun e =>
          try_except
            (let* _ := world (import_YOLOv10 env) in
             let* m := world_model (YOLOv10 env model_path) in
             let* _ := set_model m in
             let* _ := set_model_name "yolov10e" in
             ret true)
            (fun e' => raise e')))
    (fun e => if is_class ImportError e then ret false else raise e).

Definition _load_yolov10 (model_path : string) : M (W * t Model) unit :=
  try_except
    (let* returned := _load_yolov10_try model_path in
     if returned : bool then ret tt
     else
       try_except
         (let* _ := world (torch_load env model_path _detect_device) in
          _load_yolov8_fallback)
         (fun e => _load_yolov8_fallback))
    (fun e => _load_yolov8_fallback).

(** [YOLOv10Detector(model_path)]: the new object, or the exception
    that leaves [__init__]. *)
#[warnings="-inexact-float"]
Definition __init__ (model_path : option string) : M W (t Model) :=
  fun w =>
    let self := mk _detect_device None None 0.25 0.45 in
    let model_path := default (default_model_path env) model_path in
    let load :=
      if path_exists env model_path
      then _load_yolov10 model_path
      else _load_yolov8_fallback in
    match load (w, self) with
    | (Ok _, (w', self')) => (Ok self', w')
    | (Raise e, (w', _)) => (Raise e, w')
    end.

Definition detect (self : t Model) (image_data : bytes)
    : M W (list (gmap string pyval)) :=
  match model self with
  | None => raise (Exn RuntimeError "Model not loaded")
  | Some m =>
      infer env m image_data (conf_threshold self) (iou_threshold self)
        (device self)
  end.

Definition is_ready (self : t Model) : bool :=
  match model self with
  | Some _ => true
  | None => false
  end.

End Adapter.

End Detector.

(** ** inference/segmenter.py *)

Module Segmenter.

(** A single-channel mask: rows of pixel values. *)
Definition mask := list (list Z).

(** [np.zeros((h, w), dtype=np.uint8)]. *)
Definition np_zeros (h w : nat) : mask := repeat (repeat 0 w) h.

(** The adapter object ([self]); only [predictor] is read by
    [segment] and [is_ready]. *)
Record t (Predictor : Type) : Type := mk {
  device : string;
  predictor : option Predictor
}.
Arguments mk {Predictor}.
Arguments device {Predictor}.
Arguments predictor {Predictor}.

(** What [segment] reaches outside itself.  [image_open] is
    [np.array(Image.open(io.BytesIO(data)).convert("RGB"))] and
    [shape] its first two dimensions; [predict] returns the first
    component of the predictor's answer; [astype_uint8] is
    [mask.astype(np.uint8)]; [mid_other a b] is [(a + b) / 2] on
    operands that are not both floats. *)
Record Env (W Image RawMask Predictor : Type) : Type := mkEnv {
  image_open : bytes -> result Image;
  shape : Image -> nat * nat;
  hasattr_set_image : Predictor -> bool;
  set_image : Predictor -> Image -> M W unit;
  predict : Predictor -> list pyval -> M W (list RawMask);
  astype_uint8 : RawMask -> result mask;
  mid_other : pyval -> pyval -> result pyval
}.
Arguments image_open {W Image RawMask Predictor}.
Arguments shape {W Image RawMask Predictor}.
Arguments hasattr_set_image {W Image RawMask Predictor}.
Arguments set_image {W Image RawMask Predictor}.
Arguments predict {W Image RawMask Predictor}.
Arguments astype_uint8 {W Image RawMask Predictor}.
Arguments mid_other {W Image RawMask Predictor}.

Section Adapter.
Context {W Image RawMask Predictor : Type}
  (env : Env W Image RawMask Predictor).

Definition chars (s : string) : list pyval :=
  map (fun c => VStr (String c EmptyString)) (list_ascii_of_string s).

(** [x1, y1, x2, y2 = bbox]. *)
Definition unpack4 (bbox : pyval) : result (pyval * pyval * pyval * pyval) :=
  let items :=
    match bbox with
    | VList l => Ok l
    | VStr s => Ok (chars s)
    | _ => Raise (Exn TypeError "cannot unpack non-iterable object")
    end in
  match items with
  | Raise e => Raise e
  | Ok [x1; y1; x2; y2] => Ok (x1, y1, x2, y2)
  | Ok (_ :: _ :: _ :: _ :: _ :: _) =>
      Raise (Exn ValueError "too many values to unpack (expected 4)")
  | Ok _ => Raise (Exn ValueError "not enough values to unpack (expected 4)")
  end.

(** [(a + b) / 2]. *)
Definition midpoint (a b : pyval) : result pyval :=
  match a, b with
  | VFloat x, VFloat y => Ok (VFloat ((x + y) / 2))
  | _, _ => mid_other env a b
  end.

(** [mask.astype(np.uint8) * 255], the product taken in [uint8]. *)
Definition to_binary (m : RawMask) : result mask :=
  match astype_uint8 env m with
  | Ok u => Ok (map (map (fun v => (v * 255) mod 256)) u)
  | Raise e => Raise e
  end.

(** The body of the [try] in [segment] (lines 132-155). *)
Definition segment_try (p : Predictor) (image_rgb : Image)
    (box_coords : list pyval) : M W mask :=
  let* mask :=
    if hasattr_set_image env p
    then
      let* _ := set_image env p image_rgb in
      let* masks := predict env p box_coords in
      match masks with
      | m :: _ => ret m
      | [] => raise (Exn IndexError "index 0 is out of bounds")
      end
    else raise (Exn NotImplementedError "SAM2 API not recognized") in
  lift (to_binary mask).

Definition segment (self : t Predictor) (image_data : bytes) (bbox : pyval)
    : M W mask :=
  match predictor self with
  | None => raise (Exn RuntimeError "SAM2 predictor not loaded")
  | Some p =>
      let* image_rgb := lift (image_open env image_data) in
      let (h, w) := shape env image_rgb in
      let* (x1, y1, x2, y2) := lift (unpack4 bbox) in
      let* _ := lift (midpoint x1 x2) in
      let* _ := lift (midpoint y1 y2) in
      let box_coords := [x1; y1; x2; y2] in
      try_except
        (segment_try p image_rgb box_coords)
        (fun e => ret (np_zeros h w))
  end.

Definition is_ready (self : t Predictor) : bool :=
  match predictor self with
  | Some _ => true
  | None => false
  end.

End Adapter.

End Segmenter.

(** ** main.py *)

Module Main.

(** An uploaded file; [content] is what [await image.read()] returns. *)
Record UploadFile : Type := mkUpload {
  filename : string;
  content : bytes
}.

(** The parameters of [POST /detect]. *)
Record request : Type := mkRequest {
  image : option UploadFile;
  image_base64 : option string;
  segmentation : bool
}.

(** The response dict of [/detect]; [masks = None] is a response
    without the ["masks"] key, and a [None] entry of the list is a
    JSON [null]. *)
Record response : Type := mkResponse {
  success : bool;
  detections : list (gmap string pyval);
  count : Z;
  masks : option (list (option string))
}.

(** The readiness part of the response of [GET /]. *)
Record liveness : Type := mkLiveness {
  detector_ready : bool;
  segmenter_ready : bool
}.

Section Service.
Context {W Model Image RawMask Predictor : Type}
  (yolo : Detector.Env W Model)
  (sam : Segmenter.Env W Image RawMask Predictor).

(** [png_encode] is the PNG encoding of a mask image
    ([Image.fromarray(mask, mode="L").save(buffer, format="PNG")]);
    [SAM2Segmenter] is the segmenter's constructor, whose body is not
    embedded. *)
Context (png_encode : Segmenter.mask -> result bytes)
  (SAM2Segmenter : M W (Segmenter.t Predictor)).

(** [utils/image_io.py], [encode_mask_to_base64] on a two-dimensional
    [uint8] mask. *)
Definition encode_mask_to_base64 (mask : Segmenter.mask) : result string :=
  match png_encode mask with
  | Ok mask_bytes => Ok (ImageIO.encode_image_to_base64 mask_bytes "PNG")
  | Raise e => Raise e
  end.

(** The globals [detector] and [segmenter] after startup. *)
Definition lifespan
    : W -> (option (Detector.t Model) * option (Segmenter.t Predictor)) * W :=
  fun w =>
    let (d, w1) :=
      match Detector.__init__ yolo None w with
      | (Ok d, w1) => (Some d, w1)
      | (Raise _, w1) => (None, w1)
      end in
    let (s, w2) :=
      match SAM2Segmenter w1 with
      | (Ok s, w2) => (Some s, w2)
      | (Raise _, w2) => (None, w2)
      end in
    ((d, s), w2).

Section Handlers.
Context (detector : option (Detector.t Model))
  (segmenter : option (Segmenter.t Predictor)).

Definition root : liveness :=
  mkLiveness (match detector with Some _ => true | None => false end)
             (match segmenter with Some _ => true | None => false end).

(** The mapping loop (lines 163-166). *)
Fixpoint map_loop (detections : list (gmap string pyval))
    : result (list (gmap string pyval)) :=
  match detections with
  | [] => Ok []
  | det :: rest =>
      match Mapper.map_detection det with
      | Raise e => Raise e
      | Ok mapped =>
          match map_loop rest with
          | Ok mapped_detections => Ok (mapped :: mapped_detections)
          | Raise e => Raise e
          end
      end
  end.

(** [det["bbox"]]. *)
Definition getitem (det : gmap string pyval) (key : string) : result pyval :=
  match det !! key with
  | Some v => Ok v
  | None => Raise (Exn KeyError ("'" +:+ key +:+ "'"))
  end.

(** Lines 174-175: the mask of [det], encoded. *)
Definition segment_encode (seg : Segmenter.t Predictor) (image_data : bytes)
    (det : gmap string pyval) : M W string :=
  let* bbox := lift (getitem det "bbox") in
  let* mask := Segmenter.segment sam seg image_data bbox in
  lift (encode_mask_to_base64 mask).

(** One turn of the segmentation loop (lines 173-179): the entry that
    is appended for [det]. *)
Definition segment_one (seg : Segmenter.t Predictor) (image_data : bytes)
    (det : gmap string pyval) : M W (option string) :=
  try_except
    (let* mask_b64 := segment_encode seg image_data det in
     ret (Some mask_b64))
    (fun e => ret None).

Fixpoint segment_loop (seg : Segmenter.t Predictor) (image_data : bytes)
    (detections : list (gmap string pyval)) : M W (list (option string)) :=
  match detections with
  | [] => ret []
  | det :: rest =>
      let* m := segment_one seg image_data det in
      let* ms := segment_loop seg image_data rest in
      ret (m :: ms)
  end.

(** Lines 129-145 of [detect_waste]: the image bytes of the request,
    from the uploaded file when there is one, else from a non-empty
    [image_base64]. *)
Definition read_image (req : request) : result bytes :=
  match image req with
  | Some file => Ok (content file)
  | None =>
      if Str.truthy (image_base64 req)
      then
        match ImageIO.decode_image (default "" (image_base64 req)) with
        | Ok data => Ok data
        | Raise e =>
            Raise (HTTPException 400 ("Invalid base64 image: " +:+ str_exn e))
        end
      else
        Raise (HTTPException 400
          "No image provided. Send 'image' file or 'image_base64' string.")
  end.

Definition detect_waste (req : request) : M W response :=
  match detector with
  | None =>
      raise (HTTPException 503 "Detector not loaded. Check server logs.")
  | Some det =>
      let* image_data := lift (read_image req) in
      match image_data with
      | [] => raise (HTTPException 400 "Failed to decode image")
      | _ :: _ =>
          try_except
            (let* dets := Detector.detect yolo det image_data in
             match dets with
             | [] => ret (mkResponse true [] 0 None)
             | _ :: _ =>
                 let* mapped_detections := lift (map_loop dets) in
                 let* masks_base64 :=
                   if segmentation req
                   then
                     match segmenter with
                     | Some seg => segment_loop seg image_data dets
                     | None => ret (repeat None (length dets))
                     end
                   else ret [] in
                 ret (mkResponse true mapped_detections
                        (Z.of_nat (length mapped_detections))
                        (if segmentation req then Some masks_base64 else None))
             end)
            (fun e =>
               raise (HTTPException 500 ("Detection failed: " +:+ str_exn e)))
      end
  end.

End Handlers.

End Service.

End Main.

(** * Properties *)

(** ** The class mapper *)

Section MapperFacts.
Import Mapper.

Lemma dict_get_Some {V : Type} (d : list (string * V)) (k : string) (v : V) :
  dict_get d k = Some v -> In (k, v) d.
Proof.
  induction d as [|[k' v'] d IH]; simpl; [discriminate|].
  destruct (String.eqb k' k) eqn:E.
  - apply String.eqb_eq in E. intros [= ->]. left. congruence.
  - intros H. right. auto.
Qed.

Lemma dict_get_None {V : Type} (d : list (string * V)) (k : string) :
  (forall v, ~ In (k, v) d) -> dict_get d k = None.
Proof.
  intros H. destruct (dict_get d k) eqn:E; [|reflexivity].
  apply dict_get_Some in E. destruct (H _ E).
Qed.

Lemma partial_match_value items raw w v :
  partial_match items raw w = Some v ->
  w = Some v \/ In v (map snd items).
Proof.
  induction items as [|[key value] rest IH]; simpl; [auto|].
  destruct (Str.contains key raw || Str.contains raw key).
  - intros [= ->]. right. left. reflexivity.
  - intros H. destruct (IH H); auto.
Qed.

Lemma partial_match_none items raw w :
  (forall k v, In (k, v) items ->
     Str.contains k raw = false /\ Str.contains raw k = false) ->
  partial_match items raw w = w.
Proof.
  induction items as [|[key value] rest IH]; simpl; [reflexivity|].
  intros H. destruct (H key value) as [-> ->]; [left; reflexivity|]. simpl.
  apply IH. intros k v Hin. apply (H k v). right. exact Hin.
Qed.

Lemma partial_match_first before key value after raw w :
  (forall k v, In (k, v) before ->
     Str.contains k raw = false /\ Str.contains raw k = false) ->
  Str.contains key raw || Str.contains raw key = true ->
  partial_match (before ++ (key, value) :: after) raw w = Some value.
Proof.
  induction before as [|[k0 v0] before IH]; simpl; intros Hb Hk.
  - rewrite Hk. reflexivity.
  - destruct (Hb k0 v0) as [-> ->]; [left; reflexivity|]. simpl.
    apply IH; [|exact Hk]. intros k v Hin. apply (Hb k v). right. exact Hin.
Qed.

(** Every value of the synonym table is a category and is not empty. *)
Lemma class_mapping_values v :
  In v (map snd class_mapping) -> In v get_all_classes /\ v <> "".
Proof.
  assert (Hall : forallb (fun v => existsb (String.eqb v) get_all_classes
                                   && negb (String.eqb v ""))
                   (map snd class_mapping) = true) by (vm_compute; reflexivity).
  intros H. rewrite forallb_forall in Hall. specialize (Hall v H).
  apply andb_true_iff in Hall as [Hin Hne]. split.
  - apply existsb_exists in Hin as (c & Hc & Heq).
    apply String.eqb_eq in Heq. subst c. exact Hc.
  - intros ->. discriminate Hne.
Qed.

Lemma truthy_Some_nonempty v : v <> "" -> Str.truthy (Some v) = true.
Proof.
  intros H. simpl. destruct (String.eqb v "") eqn:E; [|reflexivity].
  apply String.eqb_eq in E. contradiction.
Qed.

Lemma resolve_class_in_classes raw : In (resolve_class raw) get_all_classes.
Proof.
  assert (Hd : In "plastic_bottle" get_all_classes) by (vm_compute; tauto).
  unfold resolve_class.
  destruct (dict_get class_mapping raw) as [v|] eqn:Hget.
  - apply dict_get_Some in Hget.
    assert (Hv : In v (map snd class_mapping))
      by (apply in_map_iff; exists (raw, v); auto).
    apply class_mapping_values in Hv as [Hv Hne].
    rewrite (truthy_Some_nonempty v Hne). rewrite (truthy_Some_nonempty v Hne).
    exact Hv.
  - change (Str.truthy None) with false. cbv iota.
    destruct (partial_match class_mapping raw None) as [v|] eqn:Hp; [|exact Hd].
    apply partial_match_value in Hp as [Hp|Hp]; [discriminate|].
    apply class_mapping_values in Hp as [Hv Hne].
    rewrite (truthy_Some_nonempty v Hne). exact Hv.
Qed.

Lemma resolve_class_miss raw :
  (forall key value, In (key, value) class_mapping ->
     key <> raw /\ Str.contains key raw = false
     /\ Str.contains raw key = false) ->
  resolve_class raw = "plastic_bottle".
Proof.
  intros H. unfold resolve_class.
  rewrite dict_get_None.
  2: { intros v Hin. destruct (H raw v Hin) as [Hne _]. congruence. }
  change (Str.truthy None) with false. cbv iota.
  rewrite partial_match_none; [reflexivity|].
  intros k v Hin. destruct (H k v Hin) as (_ & Ha & Hb). auto.
Qed.

Lemma map_detection_class (det : gmap string pyval) (s : string) :
  det_get det "class_name" (VStr "") = VStr s ->
  exists mapped,
    map_detection det = Ok mapped
    /\ mapped !! "class" = Some (VStr (resolve_class (Str.lower s)))
    /\ mapped !! "confidence" = Some (det_get det "confidence" (VFloat 0))
    /\ mapped !! "bbox"
       = Some (det_get det "bbox" (VList [VInt 0; VInt 0; VInt 0; VInt 0]))
    /\ mapped !! "class_id" = Some (det_get det "class_id" (VInt 0)).
Proof.
  intros H. unfold map_detection. rewrite H.
  eexists. split; [reflexivity|].
  repeat split; simplify_map_eq; reflexivity.
Qed.

End MapperFacts.

Section MapperClaims.
Import Mapper.

Lemma class_mapping_exact key value :
  In (key, value) class_mapping ->
  Str.lower key = key /\ resolve_class key = value.
Proof.
  assert (Hall : forallb (fun kv => String.eqb (Str.lower (fst kv)) (fst kv)
                                    && String.eqb (resolve_class (fst kv))
                                         (snd kv))
                   class_mapping = true) by (vm_compute; reflexivity).
  intros H. rewrite forallb_forall in Hall. specialize (Hall _ H).
  apply andb_true_iff in Hall as [Hl Hr]. simpl in Hl, Hr.
  apply String.eqb_eq in Hl, Hr. auto.
Qed.

Lemma get_all_classes_eq :
  get_all_classes
  = [ "plastic_bottle"; "plastic_wrapper"; "paper_cup"; "food_waste";
      "glass_bottle"; "metal_can"; "cardboard_box"; "cloth" ].
Proof. reflexivity. Qed.

(** A detection as the detector adapter builds it. *)
Definition sample_detection (class_name : string) : gmap string pyval :=
  <["bbox" := VList [VFloat 10; VFloat 20; VFloat 110; VFloat 220]]>
  (<["confidence" := VFloat 0.5]>
  (<["class_id" := VInt 39]>
  (<["class_name" := VStr class_name]> ∅))).

(** C3. For a detection whose [class_name] is a string, [map_detection]
    does not raise; the ["class"] of its result is one of the eight
    categories of [get_all_classes]; and when the lowercased label
    equals no key of the synonym table, contains none and is contained
    in none, that class is [plastic_bottle]. *)
Theorem map_detection_total_in_taxonomy (det : gmap string pyval) (s : string)
    (Hname : det !! "class_name" = Some (VStr s)) :
  exists mapped c,
    map_detection det = Ok mapped
    /\ mapped !! "class" = Some (VStr c)
    /\ In c get_all_classes
    /\ length get_all_classes = 8%nat
    /\ ((forall key value, In (key, value) class_mapping ->
           key <> Str.lower s
           /\ Str.contains key (Str.lower s) = false
           /\ Str.contains (Str.lower s) key = false) ->
        c = "plastic_bottle").
Proof.
  destruct (map_detection_class det s) as (mapped & Hm & Hc & _).
  { unfold det_get. rewrite Hname. reflexivity. }
  exists mapped, (resolve_class (Str.lower s)).
  split; [exact Hm|]. split; [exact Hc|].
  split; [apply resolve_class_in_classes|].
  split; [reflexivity|].
  apply resolve_class_miss.
Qed.

Lemma map_detection_total_in_taxonomy_witness :
  sample_detection "Spaceship" !! "class_name" = Some (VStr "Spaceship")
  /\ exists mapped c,
       map_detection (sample_detection "Spaceship") = Ok mapped
       /\ mapped !! "class" = Some (VStr c)
       /\ In c get_all_classes
       /\ length get_all_classes = 8%nat
       /\ ((forall key value, In (key, value) class_mapping ->
              key <> Str.lower "Spaceship"
              /\ Str.contains key (Str.lower "Spaceship") = false
              /\ Str.contains (Str.lower "Spaceship") key = false) ->
           c = "plastic_bottle").
Proof.
  split; [reflexivity|].
  apply (map_detection_total_in_taxonomy (sample_detection "Spaceship")
           "Spaceship").
  reflexivity.
Defined.

(** C4. A detection without a [class_name] key, or whose [class_name]
    is the empty string, is mapped to [plastic_bottle]. *)
Theorem map_detection_missing_label (det : gmap string pyval)
    (Hname : det !! "class_name" = None
             \/ det !! "class_name" = Some (VStr "")) :
  exists mapped,
    map_detection det = Ok mapped
    /\ mapped !! "class" = Some (VStr "plastic_bottle").
Proof.
  destruct (map_detection_class det "") as (mapped & Hm & Hc & _).
  { unfold det_get. destruct Hname as [-> | ->]; reflexivity. }
  exists mapped. split; [exact Hm|]. exact Hc.
Qed.

Lemma map_detection_missing_label_witness :
  ((∅ : gmap string pyval) !! "class_name" = None
   \/ (∅ : gmap string pyval) !! "class_name" = Some (VStr ""))
  /\ exists mapped,
       map_detection ∅ = Ok mapped
       /\ mapped !! "class" = Some (VStr "plastic_bottle").
Proof.
  split; [left; reflexivity|].
  apply (map_detection_missing_label ∅). left. reflexivity.
Defined.

(** C5. The class of a mapped detection is a function of the
    lowercased label: if that label is a key of the synonym table, the
    class is the key's category (and every key is its own lowercase
    form, so each table key maps to its category); if it is no key,
    the class is the category of the first key, in table order, that
    is contained in the label or contains it. *)
Theorem map_detection_algorithm (det : gmap string pyval) (s : string)
    (Hname : det !! "class_name" = Some (VStr s)) :
  exists mapped,
    map_detection det = Ok mapped
    /\ mapped !! "class" = Some (VStr (resolve_class (Str.lower s)))
    /\ (forall key value, In (key, value) class_mapping ->
          Str.lower key = key
          /\ (Str.lower s = key -> resolve_class (Str.lower s) = value))
    /\ ((forall key value, In (key, value) class_mapping ->
           Str.lower s <> key) ->
        forall before key value after,
          class_mapping = before ++ (key, value) :: after ->
          (forall k v, In (k, v) before ->
             Str.contains k (Str.lower s) = false
             /\ Str.contains (Str.lower s) k = false) ->
          Str.contains key (Str.lower s)
          || Str.contains (Str.lower s) key = true ->
          resolve_class (Str.lower s) = value).
Proof.
  destruct (map_detection_class det s) as (mapped & Hm & Hc & _).
  { unfold det_get. rewrite Hname. reflexivity. }
  exists mapped. split; [exact Hm|]. split; [exact Hc|]. split.
  - intros key value Hin.
    destruct (class_mapping_exact key value Hin) as [Hl Hr].
    split; [exact Hl|]. intros ->. exact Hr.
  - intros Hmiss before key value after Hsplit Hbefore Hkey.
    unfold resolve_class.
    rewrite dict_get_None.
    2: { intros v Hin. exact (Hmiss _ _ Hin eq_refl). }
    change (Str.truthy None) with false. cbv iota.
    rewrite Hsplit, (partial_match_first _ _ _ _ _ _ Hbefore Hkey).
    assert (Hv : In value (map snd class_mapping)).
    { rewrite Hsplit. apply in_map_iff. exists (key, value).
      split; [reflexivity|]. apply in_or_app. right. left. reflexivity. }
    apply class_mapping_values in Hv as [_ Hne].
    rewrite (truthy_Some_nonempty value Hne). reflexivity.
Qed.

Lemma map_detection_algorithm_witness :
  sample_detection "Teacup" !! "class_name" = Some (VStr "Teacup")
  /\ resolve_class (Str.lower "Teacup") = "paper_cup"
  /\ exists mapped,
       map_detection (sample_detection "Teacup") = Ok mapped
       /\ mapped !! "class" = Some (VStr (resolve_class (Str.lower "Teacup")))
       /\ (forall key value, In (key, value) class_mapping ->
             Str.lower key = key
             /\ (Str.lower "Teacup" = key ->
                 resolve_class (Str.lower "Teacup") = value))
       /\ ((forall key value, In (key, value) class_mapping ->
              Str.lower "Teacup" <> key) ->
           forall before key value after,
             class_mapping = before ++ (key, value) :: after ->
             (forall k v, In (k, v) before ->
                Str.contains k (Str.lower "Teacup") = false
                /\ Str.contains (Str.lower "Teacup") k = false) ->
             Str.contains key (Str.lower "Teacup")
             || Str.contains (Str.lower "Teacup") key = true ->
             resolve_class (Str.lower "Teacup") = value).
Proof.
  split; [reflexivity|]. split; [reflexivity|].
  apply (map_detection_algorithm (sample_detection "Teacup") "Teacup").
  reflexivity.
Defined.

(** C10. [map_detection] copies [bbox], [confidence] and [class_id]
    from the detection when the key is present and puts
    [[0, 0, 0, 0]], [0.0] and [0] when it is absent; a missing key,
    [class_name] included, does not make it raise. *)
Theorem map_detection_passthrough (det : gmap string pyval)
    (Hname : det !! "class_name" = None
             \/ exists s, det !! "class_name" = Some (VStr s)) :
  exists mapped,
    map_detection det = Ok mapped
    /\ mapped !! "bbox"
       = Some (default (VList [VInt 0; VInt 0; VInt 0; VInt 0]) (det !! "bbox"))
    /\ mapped !! "confidence" = Some (default (VFloat 0) (det !! "confidence"))
    /\ mapped !! "class_id" = Some (default (VInt 0) (det !! "class_id")).
Proof.
  assert (Hs : exists s, det_get det "class_name" (VStr "") = VStr s).
  { unfold det_get. destruct Hname as [-> | [s ->]]; eexists; reflexivity. }
  destruct Hs as [s Hs].
  destruct (map_detection_class det s Hs) as (mapped & Hm & _ & Hc & Hb & Hi).
  exists mapped. unfold det_get in Hc, Hb, Hi. auto.
Qed.

Lemma map_detection_passthrough_witness :
  let det : gmap string pyval :=
    <["confidence" := VFloat 0.5]> (<["class_name" := VStr "can"]> ∅) in
  (det !! "class_name" = None
   \/ exists s, det !! "class_name" = Some (VStr s))
  /\ exists mapped,
       map_detection det = Ok mapped
       /\ mapped !! "bbox" = Some (VList [VInt 0; VInt 0; VInt 0; VInt 0])
       /\ mapped !! "confidence" = Some (VFloat 0.5)
       /\ mapped !! "class_id" = Some (VInt 0).
Proof.
  intros det. split; [right; exists "can"; reflexivity|].
  apply (map_detection_passthrough det).
  right. exists "can". reflexivity.
Defined.

End MapperClaims.

(** ** The base64 codec *)

Section Base64Facts.
Import Base64.

(** The integers [0 .. n-1], for checks by enumeration. *)
Definition below (n : nat) : list Z := map Z.of_nat (seq 0 n).

Lemma below_spec (n : nat) (z : Z) : 0 <= z < Z.of_nat n -> In z (below n).
Proof.
  intros H. unfold below. apply in_map_iff. exists (Z.to_nat z).
  split; [lia|]. apply in_seq. lia.
Qed.

Lemma forall_below (n : nat) (P : Z -> bool) :
  forallb P (below n) = true -> forall z, 0 <= z < Z.of_nat n -> P z = true.
Proof.
  intros H z Hz. rewrite forallb_forall in H. apply H, below_spec, Hz.
Qed.

Definition sextet (v : Z) : bool := (0 <=? v) && (v <? 64).

(** Every 6-bit value is sent to an alphabet character that is not
    the pad and that the decoding table sends back. *)
Definition table_ok (i : Z) : bool :=
  negb (Ascii.eqb (table_b2a i) BASE64_PAD)
  && match table_a2b (table_b2a i) with
     | Some v => v =? i
     | None => false
     end.

Lemma table_roundtrip (i : Z) :
  sextet i = true ->
  Ascii.eqb (table_b2a i) BASE64_PAD = false
  /\ table_a2b (table_b2a i) = Some i.
Proof.
  intros Hi. unfold sextet in Hi. apply andb_true_iff in Hi as [H0 H1].
  assert (Hall : forallb table_ok (below 64) = true)
    by (vm_compute; reflexivity).
  pose proof (forall_below 64 table_ok Hall i ltac:(lia)) as H.
  unfold table_ok in H. apply andb_true_iff in H as [Hp Ht]. split.
  - destruct (Ascii.eqb (table_b2a i) BASE64_PAD); [discriminate|reflexivity].
  - destruct (table_a2b (table_b2a i)) as [v|]; [|discriminate].
    apply Z.eqb_eq in Ht. congruence.
Qed.

(** The bit arithmetic of one group, checked on all pairs of bytes:
    the first two characters of a group and what the decoder rebuilds
    from them. *)
Definition check_ab (a b : Z) : bool :=
  let s0 := Z.shiftr a 2 in
  let s1 := Z.lor (Z.shiftl (Z.land a 3) 4) (Z.shiftr b 4) in
  let t1 := Z.shiftl (Z.land a 3) 4 in
  sextet s0 && sextet s1 && sextet t1
  && (Z.land (Z.lor (Z.shiftl s0 2) (Z.shiftr s1 4)) 255 =? a)
  && (Z.land (Z.lor (Z.shiftl s0 2) (Z.shiftr t1 4)) 255 =? a)
  && (Z.land s1 15 =? Z.shiftr b 4).

(** The last two characters of a group. *)
Definition check_bc (b c : Z) : bool :=
  let s2 := Z.lor (Z.shiftl (Z.land b 15) 2) (Z.shiftr c 6) in
  let t2 := Z.shiftl (Z.land b 15) 2 in
  let s3 := Z.land c 63 in
  sextet s2 && sextet t2 && sextet s3
  && (Z.land (Z.lor (Z.shiftl (Z.shiftr b 4) 4) (Z.shiftr s2 2)) 255 =? b)
  && (Z.land (Z.lor (Z.shiftl (Z.shiftr b 4) 4) (Z.shiftr t2 2)) 255 =? b)
  && (Z.land s2 3 =? Z.shiftr c 6)
  && (Z.land (Z.lor (Z.shiftl (Z.shiftr c 6) 6) s3) 255 =? c).

Lemma check_ab_all (a b : Z) : is_byte a -> is_byte b -> check_ab a b = true.
Proof.
  intros Ha Hb.
  assert (Hall : forallb (fun a => forallb (check_ab a) (below 256))
                   (below 256) = true) by (vm_compute; reflexivity).
  pose proof (forall_below 256 _ Hall a Ha) as H. cbv beta in H.
  exact (forall_below 256 _ H b Hb).
Qed.

Lemma check_bc_all (b c : Z) : is_byte b -> is_byte c -> check_bc b c = true.
Proof.
  intros Hb Hc.
  assert (Hall : forallb (fun b => forallb (check_bc b) (below 256))
                   (below 256) = true) by (vm_compute; reflexivity).
  pose proof (forall_below 256 _ Hall b Hb) as H. cbv beta in H.
  exact (forall_below 256 _ H c Hc).
Qed.

End Base64Facts.

Section Base64Roundtrip.
Import Base64.

Lemma list_ind3 {A : Type} (P : list A -> Prop) :
  P [] ->
  (forall a, P [a]) ->
  (forall a b, P [a; b]) ->
  (forall a b c l, P l -> P (a :: b :: c :: l)) ->
  forall l, P l.
Proof.
  intros H0 H1 H2 H3. fix IH 1.
  intros [|a [|b [|c l]]]; [exact H0|apply H1|apply H2|apply H3, IH].
Qed.

(** One turn of the decoding loop on an alphabet character. *)
Lemma a2b_loop_step (i : Z) (rest : string) (quad_pos leftchar pads : Z)
    (bin_data : bytes) :
  sextet i = true ->
  a2b_loop (String (table_b2a i) rest) quad_pos leftchar pads bin_data
  = if quad_pos =? 0 then a2b_loop rest 1 i 0 bin_data
    else if quad_pos =? 1 then
      a2b_loop rest 2 (Z.land i 15) 0
        (bin_data ++ [Z.land (Z.lor (Z.shiftl leftchar 2) (Z.shiftr i 4)) 255])
    else if quad_pos =? 2 then
      a2b_loop rest 3 (Z.land i 3) 0
        (bin_data ++ [Z.land (Z.lor (Z.shiftl leftchar 4) (Z.shiftr i 2)) 255])
    else
      a2b_loop rest 0 0 0
        (bin_data ++ [Z.land (Z.lor (Z.shiftl leftchar 6) i) 255]).
Proof.
  intros Hi. destruct (table_roundtrip i Hi) as [Hp Ht].
  cbn [a2b_loop]. rewrite Hp, Ht. reflexivity.
Qed.

Lemma check_ab_facts (a b : Z) :
  is_byte a -> is_byte b ->
  let s0 := Z.shiftr a 2 in
  let s1 := Z.lor (Z.shiftl (Z.land a 3) 4) (Z.shiftr b 4) in
  let t1 := Z.shiftl (Z.land a 3) 4 in
  sextet s0 = true /\ sextet s1 = true /\ sextet t1 = true
  /\ Z.land (Z.lor (Z.shiftl s0 2) (Z.shiftr s1 4)) 255 = a
  /\ Z.land (Z.lor (Z.shiftl s0 2) (Z.shiftr t1 4)) 255 = a
  /\ Z.land s1 15 = Z.shiftr b 4.
Proof.
  intros Ha Hb s0 s1 t1. pose proof (check_ab_all a b Ha Hb) as H.
  unfold check_ab in H. fold s0 s1 t1 in H. cbv zeta in H.
  repeat match type of H with
         | (_ && _) = true =>
             let H' := fresh in apply andb_true_iff in H as [H H']
         end.
  repeat match goal with
         | E : (_ =? _) = true |- _ => apply Z.eqb_eq in E
         end.
  repeat split; assumption.
Qed.

Lemma check_bc_facts (b c : Z) :
  is_byte b -> is_byte c ->
  let s2 := Z.lor (Z.shiftl (Z.land b 15) 2) (Z.shiftr c 6) in
  let t2 := Z.shiftl (Z.land b 15) 2 in
  let s3 := Z.land c 63 in
  sextet s2 = true /\ sextet t2 = true /\ sextet s3 = true
  /\ Z.land (Z.lor (Z.shiftl (Z.shiftr b 4) 4) (Z.shiftr s2 2)) 255 = b
  /\ Z.land (Z.lor (Z.shiftl (Z.shiftr b 4) 4) (Z.shiftr t2 2)) 255 = b
  /\ Z.land s2 3 = Z.shiftr c 6
  /\ Z.land (Z.lor (Z.shiftl (Z.shiftr c 6) 6) s3) 255 = c.
Proof.
  intros Hb Hc s2 t2 s3. pose proof (check_bc_all b c Hb Hc) as H.
  unfold check_bc in H. fold s2 t2 s3 in H. cbv zeta in H.
  repeat match type of H with
         | (_ && _) = true =>
             let H' := fresh in apply andb_true_iff in H as [H H']
         end.
  repeat match goal with
         | E : (_ =? _) = true |- _ => apply Z.eqb_eq in E
         end.
  repeat split; assumption.
Qed.

Lemma a2b_loop_pad2 (leftchar : Z) (bin_data : bytes) :
  a2b_loop (String BASE64_PAD (String BASE64_PAD EmptyString)) 2 leftchar 0
    bin_data = Ok bin_data.
Proof. reflexivity. Qed.

Lemma a2b_loop_pad1 (leftchar : Z) (bin_data : bytes) :
  a2b_loop (String BASE64_PAD EmptyString) 3 leftchar 0 bin_data
  = Ok bin_data.
Proof. reflexivity. Qed.

(** Decoding what [b64encode] produced gives the bytes back, after
    whatever was already written. *)
Lemma a2b_loop_encode (s : bytes) :
  Forall is_byte s ->
  forall leftchar bin_data,
    a2b_loop (b64encode s) 0 leftchar 0 bin_data = Ok (bin_data ++ s).
Proof.
  induction s as [|a|a b|a b c rest IH] using list_ind3;
    intros Hs leftchar bin_data.
  - cbn. rewrite app_nil_r. reflexivity.
  - apply Forall_cons_iff in Hs as [Ha _].
    destruct (check_ab_facts a 0 Ha ltac:(unfold is_byte; lia))
      as (S0 & _ & T1 & _ & E1 & _).
    cbn [b64encode].
    rewrite a2b_loop_step by exact S0. cbn [Z.eqb].
    rewrite a2b_loop_step by exact T1. cbn [Z.eqb Pos.eqb].
    rewrite a2b_loop_pad2, E1. reflexivity.
  - apply Forall_cons_iff in Hs as [Ha Hs].
    apply Forall_cons_iff in Hs as [Hb _].
    destruct (check_ab_facts a b Ha Hb) as (S0 & S1 & _ & E0 & _ & L1).
    destruct (check_bc_facts b 0 Hb ltac:(unfold is_byte; lia))
      as (_ & T2 & _ & _ & E2 & _).
    cbn [b64encode].
    rewrite a2b_loop_step by exact S0. cbn [Z.eqb].
    rewrite a2b_loop_step by exact S1. cbn [Z.eqb Pos.eqb].
    rewrite a2b_loop_step by exact T2. cbn [Z.eqb Pos.eqb].
    rewrite a2b_loop_pad1, E0, L1, E2.
    rewrite <- app_assoc. reflexivity.
  - apply Forall_cons_iff in Hs as [Ha Hs].
    apply Forall_cons_iff in Hs as [Hb Hs].
    apply Forall_cons_iff in Hs as [Hc Hs].
    destruct (check_ab_facts a b Ha Hb) as (S0 & S1 & _ & E0 & _ & L1).
    destruct (check_bc_facts b c Hb Hc) as (S2 & _ & S3 & E1 & _ & L2 & E2).
    cbn [b64encode].
    rewrite a2b_loop_step by exact S0. cbn [Z.eqb].
    rewrite a2b_loop_step by exact S1. cbn [Z.eqb Pos.eqb].
    rewrite a2b_loop_step by exact S2. cbn [Z.eqb Pos.eqb].
    rewrite a2b_loop_step by exact S3. cbn [Z.eqb Pos.eqb].
    rewrite IH by exact Hs.
    rewrite E0, L1, E1, L2, E2.
    rewrite <- !app_assoc. reflexivity.
Qed.

End Base64Roundtrip.

(** ** The image codec *)

Section ImageIOFacts.
Import Base64 ImageIO.

(** A character that [decode_image] leaves alone: no comma, no white
    space, ASCII. *)
Definition plain (c : ascii) : bool :=
  negb (Ascii.eqb c ","%char) && negb (is_space c) && is_ascii c.

Fixpoint all_plain (s : string) : bool :=
  match s with
  | EmptyString => true
  | String c s' => plain c && all_plain s'
  end.

Lemma get_In (s : string) (n : nat) (c : ascii) :
  String.get n s = Some c -> In c (list_ascii_of_string s).
Proof.
  revert n. induction s as [|a s IH]; intros n; cbn; [discriminate|].
  destruct n as [|n].
  - intros [= ->]. left. reflexivity.
  - intros H. right. exact (IH n H).
Qed.

Lemma table_b2a_plain (i : Z) : plain (table_b2a i) = true.
Proof.
  assert (Hall : forallb plain (list_ascii_of_string alphabet) = true)
    by (vm_compute; reflexivity).
  unfold table_b2a. destruct (String.get (Z.to_nat i) alphabet) eqn:E.
  - rewrite forallb_forall in Hall. apply Hall. exact (get_In _ _ _ E).
  - reflexivity.
Qed.

Lemma b64encode_plain (s : bytes) : all_plain (b64encode s) = true.
Proof.
  induction s as [|a|a b|a b c rest IH] using list_ind3;
    cbn [b64encode all_plain]; rewrite ?table_b2a_plain, ?IH; reflexivity.
Qed.

Lemma plain_no_comma (s : string) :
  all_plain s = true -> Str.has_char ","%char s = false.
Proof.
  induction s as [|c s IH]; cbn [all_plain Str.has_char]; [reflexivity|].
  intros H. apply andb_true_iff in H as [Hc Hs]. rewrite (IH Hs).
  unfold plain in Hc. destruct (Ascii.eqb c ","%char); [discriminate|].
  reflexivity.
Qed.

Lemma plain_all_ascii (s : string) : all_plain s = true -> all_ascii s = true.
Proof.
  induction s as [|c s IH]; cbn [all_plain all_ascii]; [reflexivity|].
  intros H. apply andb_true_iff in H as [Hc Hs]. rewrite (IH Hs).
  unfold plain in Hc. apply andb_true_iff in Hc as [_ ->]. reflexivity.
Qed.

Lemma plain_not_space (c : ascii) : plain c = true -> is_space c = false.
Proof.
  unfold plain. intros H. apply andb_true_iff in H as [H _].
  apply andb_true_iff in H as [_ H]. destruct (is_space c); [discriminate|].
  reflexivity.
Qed.

Lemma split_no_sep (s : string) :
  Str.has_char ","%char s = false -> split ","%char s = [s].
Proof.
  induction s as [|c s IH]; cbn [Str.has_char split]; [reflexivity|].
  intros H. apply orb_false_iff in H as [Hc Hs].
  rewrite Hc, (IH Hs). reflexivity.
Qed.

Lemma rstrip_plain (s : string) : all_plain s = true -> rstrip s = s.
Proof.
  induction s as [|c s IH]; cbn [all_plain rstrip]; [reflexivity|].
  intros H. apply andb_true_iff in H as [Hc Hs]. rewrite (IH Hs).
  destruct s; [|reflexivity]. rewrite (plain_not_space c Hc). reflexivity.
Qed.

Lemma strip_plain (s : string) : all_plain s = true -> strip s = s.
Proof.
  intros H. unfold strip.
  assert (Hl : lstrip s = s).
  { destruct s as [|c s]; [reflexivity|]. cbn [lstrip].
    cbn [all_plain] in H. apply andb_true_iff in H as [Hc _].
    rewrite (plain_not_space c Hc). reflexivity. }
  rewrite Hl. apply rstrip_plain, H.
Qed.

(** On a payload of plain characters [decode_image] is [b64decode],
    with or without the data-URL prefix of [encode_image_to_base64]. *)
Lemma decode_image_plain (p : string) :
  all_plain p = true ->
  decode_image p
  = match a2b_base64 p with
    | Ok image_bytes => Ok image_bytes
    | Raise e =>
        Raise (Exn ValueError ("Failed to decode base64 image: " +:+ str_exn e))
    end.
Proof.
  intros H. unfold decode_image, b64decode.
  rewrite (plain_no_comma p H), (strip_plain p H), (plain_all_ascii p H).
  reflexivity.
Qed.

Lemma decode_image_prefixed (p : string) :
  all_plain p = true ->
  decode_image ("data:image/png;base64," +:+ p) = decode_image p.
Proof.
  intros H. unfold decode_image at 1.
  simpl String.append. simpl Str.has_char. cbv iota. simpl split.
  change ("" +:+ p) with p.
  rewrite (split_no_sep p (plain_no_comma p H)).
  unfold decode_image. rewrite (plain_no_comma p H). reflexivity.
Qed.

Lemma encode_image_PNG (image_bytes : bytes) :
  encode_image_to_base64 image_bytes "PNG"
  = "data:image/png;base64," +:+ b64encode image_bytes.
Proof. reflexivity. Qed.

(** C6. For every byte string [b], decoding the data URL that
    [encode_image_to_base64] builds gives [b] back, and so does
    decoding the bare base64 payload without the prefix. *)
Theorem decode_encode_roundtrip (b : bytes) (Hb : Forall is_byte b) :
  decode_image (encode_image_to_base64 b "PNG") = Ok b
  /\ decode_image (b64encode b) = Ok b.
Proof.
  assert (Hplain : decode_image (b64encode b) = Ok b).
  { rewrite (decode_image_plain _ (b64encode_plain b)).
    unfold a2b_base64. rewrite (a2b_loop_encode b Hb). reflexivity. }
  split; [|exact Hplain].
  rewrite encode_image_PNG, (decode_image_prefixed _ (b64encode_plain b)).
  exact Hplain.
Qed.

Lemma decode_encode_roundtrip_witness :
  Forall is_byte [137; 80; 78; 71; 13; 10; 26; 10; 0; 255]
  /\ decode_image
       (encode_image_to_base64 [137; 80; 78; 71; 13; 10; 26; 10; 0; 255] "PNG")
     = Ok [137; 80; 78; 71; 13; 10; 26; 10; 0; 255]
  /\ decode_image (b64encode [137; 80; 78; 71; 13; 10; 26; 10; 0; 255])
     = Ok [137; 80; 78; 71; 13; 10; 26; 10; 0; 255].
Proof.
  assert (H : Forall is_byte [137; 80; 78; 71; 13; 10; 26; 10; 0; 255])
    by (repeat constructor; unfold is_byte; lia).
  split; [exact H|].
  exact (decode_encode_roundtrip [137; 80; 78; 71; 13; 10; 26; 10; 0; 255] H).
Defined.

End ImageIOFacts.

(** ** The segmenter adapter *)

(** A segmenter world for examples: images are their shape, the
    predictor accepts the image and then runs out of memory. *)
Definition failing_sam : Segmenter.Env unit (nat * nat) unit unit :=
  {| Segmenter.image_open := fun _ => Ok (2%nat, 3%nat);
     Segmenter.shape := fun i => i;
     Segmenter.hasattr_set_image := fun _ => true;
     Segmenter.set_image := fun _ _ => ret tt;
     Segmenter.predict :=
       fun _ _ => raise (Exn RuntimeError "CUDA out of memory");
     Segmenter.astype_uint8 := fun _ => Ok [];
     Segmenter.mid_other :=
       fun _ _ => Raise (Exn TypeError "unsupported operand type(s)") |}.

Section SegmenterClaims.
Context {W Image RawMask Predictor : Type}
  (env : Segmenter.Env W Image RawMask Predictor).
Import Segmenter.



End SegmenterClaims.


(** ** The detector adapter *)

Section DetectorFacts.
Context {W Model : Type} (env : Detector.Env W Model).
Import Detector.

(** The fallback load fails in every state: the import of
    [ultralytics] raises, or the constructor on ["yolov8n.pt"] does. *)
Definition fallback_fails : Prop :=
  (forall w, exists e w', import_YOLO env w = (Raise e, w'))
  \/ (forall w, exists e w', YOLO env "yolov8n.pt" w = (Raise e, w')).

(** The preferred load fails: the weights are missing, or the try
    around the ultralytics loaders never returns with a model. *)
Definition preferred_fails (model_path : string) : Prop :=
  path_exists env model_path = false
  \/ (forall s, fst (_load_yolov10_try env model_path s) <> Ok true).

(** The outcome of a loader: a model is set, or a [RuntimeError]. *)
Definition loaded_or_error (r : result unit * (W * t Model)) : Prop :=
  match r with
  | (Ok _, s') => is_ready (snd s') = true
  | (Raise e, _) => exists msg, e = Exn RuntimeError msg
  end.

Lemma fallback_cases (s : W * t Model) :
  loaded_or_error (_load_yolov8_fallback env s).
Proof.
  unfold _load_yolov8_fallback, try_except, bind, world, world_model,
    set_model, set_model_name, raise.
  destruct (import_YOLO env (fst s)) as [[[]|e] w1]; cbn [fst snd].
  - destruct (YOLO env "yolov8n.pt" w1) as [[m|e] w2]; cbn [fst snd].
    + reflexivity.
    + destruct (is_class ImportError e); eexists; reflexivity.
  - destruct (is_class ImportError e); eexists; reflexivity.
Qed.

Lemma fallback_raises (s : W * t Model) :
  fallback_fails ->
  exists msg s',
    _load_yolov8_fallback env s = (Raise (Exn RuntimeError msg), s').
Proof.
  intros Hf.
  unfold _load_yolov8_fallback, try_except, bind, world, world_model,
    set_model, set_model_name, raise.
  destruct (import_YOLO env (fst s)) as [[[]|e] w1] eqn:Ei; cbn [fst snd].
  - destruct (YOLO env "yolov8n.pt" w1) as [[m|e] w2] eqn:Ey; cbn [fst snd].
    + exfalso. destruct Hf as [Hf|Hf].
      * destruct (Hf (fst s)) as (e & w' & He). congruence.
      * destruct (Hf w1) as (e & w' & He). congruence.
    + destruct (is_class ImportError e); eexists; eexists; reflexivity.
  - destruct (is_class ImportError e); eexists; eexists; reflexivity.
Qed.

(** When the try around the ultralytics loaders returns, a model is
    set. *)
Lemma load_yolov10_try_ready (model_path : string) (s s' : W * t Model) :
  _load_yolov10_try env model_path s = (Ok true, s') ->
  is_ready (snd s') = true.
Proof.
  unfold _load_yolov10_try, try_except, bind, world, world_model,
    set_model, set_model_name, raise, ret, lift.
  destruct (import_YOLO env (fst s)) as [[[]|e] w1]; cbn [fst snd].
  - destruct (YOLO env model_path w1) as [[m|e] w2]; cbn [fst snd].
    + destruct (hasattr_names env m) as [[|]|e]; cbn [fst snd].
      * intros [= <-]. reflexivity.
      * discriminate.
      * destruct (import_YOLOv10 env w2) as [[[]|e1] w3]; cbn [fst snd].
        -- destruct (YOLOv10 env model_path w3) as [[m1|e1] w4];
             cbn [fst snd].
           ++ intros [= <-]. reflexivity.
           ++ destruct (is_class ImportError e1); discriminate.
        -- destruct (is_class ImportError e1); discriminate.
    + destruct (import_YOLOv10 env w2) as [[[]|e1] w3]; cbn [fst snd].
      * destruct (YOLOv10 env model_path w3) as [[m1|e1] w4]; cbn [fst snd].
        -- intros [= <-]. reflexivity.
        -- destruct (is_class ImportError e1); discriminate.
      * destruct (is_class ImportError e1); discriminate.
  - destruct (is_class ImportError e); discriminate.
Qed.

(** A computation guarded by the fallback, as in
    [except Exception: self._load_yolov8_fallback()]. *)
Definition ok_ready (r : result unit * (W * t Model)) : Prop :=
  match r with
  | (Ok _, s') => is_ready (snd s') = true
  | (Raise _, _) => True
  end.

Lemma loaded_ok_ready r : loaded_or_error r -> ok_ready r.
Proof. destruct r as [[[]|e] s']; cbn; auto. Qed.

Lemma try_fallback_cases (c : M (W * t Model) unit) (s : W * t Model) :
  ok_ready (c s) ->
  loaded_or_error
    (try_except c (fun _ => _load_yolov8_fallback env) s).
Proof.
  unfold try_except. destruct (c s) as [[[]|e] s']; cbn [ok_ready].
  - intros H. exact H.
  - intros _. apply fallback_cases.
Qed.

Lemma try_fallback_raises (c : M (W * t Model) unit) (s : W * t Model) :
  fallback_fails ->
  (forall a s', c s <> (Ok a, s')) ->
  exists msg s',
    try_except c (fun _ => _load_yolov8_fallback env) s
    = (Raise (Exn RuntimeError msg), s').
Proof.
  intros Hf Hc. unfold try_except. destruct (c s) as [[a|e] s'] eqn:E.
  - destruct (Hc a s'). reflexivity.
  - apply fallback_raises, Hf.
Qed.

Lemma load_yolov10_cases (model_path : string) (s : W * t Model) :
  loaded_or_error (_load_yolov10 env model_path s).
Proof.
  unfold _load_yolov10. apply try_fallback_cases. unfold bind at 1.
  destruct (_load_yolov10_try env model_path s) as [[[|]|e] s1] eqn:Et;
    [exact (load_yolov10_try_ready _ _ _ Et)| |exact I].
  apply loaded_ok_ready, try_fallback_cases.
  unfold bind, world.
  destruct (torch_load env model_path (_detect_device env) (fst s1))
    as [[[]|e] w2]; [|exact I].
  apply loaded_ok_ready, fallback_cases.
Qed.

Lemma load_yolov10_raises (model_path : string) (s : W * t Model) :
  fallback_fails ->
  (forall s, fst (_load_yolov10_try env model_path s) <> Ok true) ->
  exists msg s',
    _load_yolov10 env model_path s = (Raise (Exn RuntimeError msg), s').
Proof.
  intros Hf Hp. unfold _load_yolov10. apply (try_fallback_raises _ _ Hf).
  intros a s'. unfold bind at 1.
  destruct (_load_yolov10_try env model_path s) as [[[|]|e] s1] eqn:Et;
    [|
     |discriminate].
  - exfalso. apply (Hp s). rewrite Et. reflexivity.
  - match goal with
    | |- try_except ?c _ s1 <> _ =>
        destruct (try_fallback_raises c s1 Hf) as (msg & s2 & E)
    end.
    + intros a' s2. unfold bind, world.
      destruct (torch_load env model_path (_detect_device env) (fst s1))
        as [[[]|e] w2]; [|discriminate].
      destruct (fallback_raises (w2, snd s1) Hf) as (msg & s3 & E).
      rewrite E. discriminate.
    + rewrite E. discriminate.
Qed.

(** The constructor either completes with a loaded model or raises a
    [RuntimeError]. *)
Lemma init_cases (model_path : option string) (w : W) :
  match __init__ env model_path w with
  | (Ok self, _) => is_ready self = true
  | (Raise e, _) => exists msg, e = Exn RuntimeError msg
  end.
Proof.
  unfold __init__.
  destruct (path_exists env (default (default_model_path env) model_path)).
  - match goal with
    | |- context [_load_yolov10 env ?p ?s] =>
        pose proof (load_yolov10_cases p s) as Hc;
        destruct (_load_yolov10 env p s) as [[[]|e] [w' self']]
    end; exact Hc.
  - match goal with
    | |- context [_load_yolov8_fallback env ?s] =>
        pose proof (fallback_cases s) as Hc;
        destruct (_load_yolov8_fallback env s) as [[[]|e] [w' self']]
    end; exact Hc.
Qed.

Lemma init_raises (model_path : option string) (w : W) :
  fallback_fails ->
  preferred_fails (default (default_model_path env) model_path) ->
  exists msg w',
    __init__ env model_path w = (Raise (Exn RuntimeError msg), w').
Proof.
  intros Hf Hp. unfold __init__.
  destruct (path_exists env (default (default_model_path env) model_path))
    eqn:Ex.
  - destruct Hp as [Hp|Hp]; [congruence|].
    match goal with
    | |- context [_load_yolov10 env ?p ?s] =>
        destruct (load_yolov10_raises p s Hf Hp) as (msg & [w' self'] & E)
    end.
    rewrite E. exists msg, w'. reflexivity.
  - match goal with
    | |- context [_load_yolov8_fallback env ?s] =>
        destruct (fallback_raises s Hf) as (msg & [w' self'] & E)
    end.
    rewrite E. exists msg, w'. reflexivity.
Qed.

End DetectorFacts.

(** ** The request handler *)

Section ServiceFacts.
Context {W Model Image RawMask Predictor : Type}
  (yolo : Detector.Env W Model)
  (sam : Segmenter.Env W Image RawMask Predictor)
  (png_encode : Segmenter.mask -> result bytes).
Import Main.

Abbreviation detect_waste := (Main.detect_waste yolo sam png_encode).
Abbreviation segment_encode := (Main.segment_encode sam png_encode).
Abbreviation segment_one := (Main.segment_one sam png_encode).
Abbreviation segment_loop := (Main.segment_loop sam png_encode).

(** The entry of the masks list for a detection segmented in state
    [w]: the encoded mask, or null when segmenting or encoding
    raised. *)
Definition mask_entry (seg : Segmenter.t Predictor) (image_data : bytes)
    (det : gmap string pyval) (w : W) : option string :=
  match fst (segment_encode seg image_data det w) with
  | Ok mask_b64 => Some mask_b64
  | Raise _ => None
  end.

Lemma segment_one_ok seg image_data det w :
  segment_one seg image_data det w
  = (Ok (mask_entry seg image_data det w),
     snd (segment_encode seg image_data det w)).
Proof.
  unfold Main.segment_one, mask_entry, try_except, bind, ret.
  destruct (segment_encode seg image_data det w) as [[b|e] w'];
    reflexivity.
Qed.

Lemma segment_loop_cons seg image_data det rest w :
  segment_loop seg image_data (det :: rest) w
  = match segment_loop seg image_data rest
            (snd (segment_encode seg image_data det w)) with
    | (Ok ms, w2) => (Ok (mask_entry seg image_data det w :: ms), w2)
    | (Raise e, w2) => (Raise e, w2)
    end.
Proof.
  cbn [Main.segment_loop]. unfold bind at 1. rewrite segment_one_ok.
  unfold bind, ret.
  destruct (segment_loop seg image_data rest _) as [[ms|e] w2]; reflexivity.
Qed.

(** The segmentation loop never raises, appends one entry per
    detection, and entry [i] is the entry of detection [i] in the
    state that the first [i] detections left. *)
Lemma segment_loop_spec seg image_data (dets : list (gmap string pyval)) w :
  exists ms,
    fst (segment_loop seg image_data dets w) = Ok ms
    /\ length ms = length dets
    /\ forall (i : nat) (det : gmap string pyval),
         dets !! i = Some det ->
         ms !! i
         = Some (mask_entry seg image_data det
                   (snd (segment_loop seg image_data (take i dets) w))).
Proof.
  revert w. induction dets as [|d rest IH]; intros w.
  - exists []. split; [reflexivity|]. split; [reflexivity|].
    intros i det H. destruct i; discriminate H.
  - destruct (IH (snd (segment_encode seg image_data d w)))
      as (ms & Hfst & Hlen & Hidx).
    exists (mask_entry seg image_data d w :: ms).
    rewrite segment_loop_cons.
    destruct (segment_loop seg image_data rest _) as [[ms'|e] w2] eqn:E;
      cbn [fst] in Hfst; [|discriminate].
    injection Hfst as ->.
    split; [reflexivity|]. split; [cbn [length]; congruence|].
    intros [|i] det H.
    + cbn in H. injection H as ->. reflexivity.
    + etransitivity; [exact (Hidx i det H)|]. f_equal. f_equal.
      cbn [take]. rewrite segment_loop_cons.
      destruct (segment_loop seg image_data (take i rest) _)
        as [[ms1|e1] w3]; reflexivity.
Qed.

Lemma map_loop_spec (dets mapped : list (gmap string pyval)) :
  map_loop dets = Ok mapped ->
  length mapped = length dets
  /\ forall (i : nat) (det : gmap string pyval),
       dets !! i = Some det ->
       exists m, Mapper.map_detection det = Ok m /\ mapped !! i = Some m.
Proof.
  revert mapped. induction dets as [|d rest IH]; intros mapped; cbn [map_loop].
  - intros [= <-]. split; [reflexivity|]. intros i det H.
    destruct i; discriminate H.
  - destruct (Mapper.map_detection d) as [m|e] eqn:Em; [|discriminate].
    destruct (map_loop rest) as [ms|e]; [|discriminate].
    intros [= <-]. destruct (IH ms eq_refl) as [Hlen Hidx].
    split; [cbn [length]; congruence|].
    intros [|i] det H.
    + cbn in H. injection H as <-. exists m. split; [exact Em|reflexivity].
    + exact (Hidx i det H).
Qed.

(** What a successful run of [/detect] went through. *)
Lemma detect_waste_ok_inv detector segmenter req w resp w' :
  detect_waste detector segmenter req w = (Ok resp, w') ->
  exists det image_data dets w1,
    detector = Some det
    /\ Detector.detect yolo det image_data w = (Ok dets, w1)
    /\ ((dets = [] /\ resp = mkResponse true [] 0 None /\ w' = w1)
        \/ (exists mapped ms,
              dets <> []
              /\ map_loop dets = Ok mapped
              /\ resp = mkResponse true mapped (Z.of_nat (length mapped))
                          (if segmentation req then Some ms else None)
              /\ (if segmentation req
                  then match segmenter with
                       | Some seg =>
                           segment_loop seg image_data dets w1 = (Ok ms, w')
                       | None => ms = repeat None (length dets) /\ w' = w1
                       end
                  else ms = [] /\ w' = w1))).
Proof.
  unfold Main.detect_waste. destruct detector as [det|]; [|discriminate].
  unfold bind at 1.
  unfold lift at 1.
  destruct (read_image req) as [image_data|e]; [|discriminate].
  destruct image_data as [|b0 image_data]; [discriminate|].
  unfold try_except, bind at 1.
  destruct (Detector.detect yolo det (b0 :: image_data) w)
    as [[dets|e] w1] eqn:Ed; [|discriminate].
  intros H. exists det, (b0 :: image_data), dets, w1.
  split; [reflexivity|]. split; [exact Ed|].
  destruct dets as [|d0 dets].
  - left. unfold ret in H. injection H as <- <-. auto.
  - right. unfold bind at 1, lift at 1 in H.
    destruct (map_loop (d0 :: dets)) as [mapped|e] eqn:Em; [|discriminate].
    unfold bind, ret in H.
    destruct (segmentation req).
    + destruct segmenter as [seg|].
      * destruct (segment_loop seg (b0 :: image_data) (d0 :: dets) w1)
          as [[ms|e] w2] eqn:Es; [|discriminate].
        injection H as <- <-. exists mapped, ms. auto.
      * injection H as <- <-. exists mapped, (repeat None (length (d0 :: dets))).
        auto.
    + injection H as <- <-. exists mapped, []. auto.
Qed.

End ServiceFacts.

Section ServiceClaims.
Context {W Model Image RawMask Predictor : Type}
  (yolo : Detector.Env W Model)
  (sam : Segmenter.Env W Image RawMask Predictor)
  (png_encode : Segmenter.mask -> result bytes)
  (SAM2Segmenter : M W (Segmenter.t Predictor)).
Import Main.

Abbreviation detect_waste' := (Main.detect_waste yolo sam png_encode).
Abbreviation segment_loop' := (Main.segment_loop sam png_encode).


(** Without detections the response is the short one, whatever the
    [segmentation] flag says. *)
Lemma detect_waste_no_detections det segmenter req w w1 b0 image_data :
  read_image req = Ok (b0 :: image_data) ->
  Detector.detect yolo det (b0 :: image_data) w = (Ok [], w1) ->
  detect_waste' (Some det) segmenter req w
  = (Ok (mkResponse true [] 0 None), w1).
Proof.
  intros Hi Hd. unfold Main.detect_waste, bind at 1, lift at 1.
  rewrite Hi. unfold try_except, bind at 1. rewrite Hd. reflexivity.
Qed.


(** C2, as the code has it.  The readiness of the detector is checked
    first: without a detector every request is answered 503, whatever
    image inputs it carries.  With a detector, a request with neither
    input (or an empty [image_base64] and no file) is answered 400; a
    request with both is served from the file, [image_base64] being
    ignored; and every 400 answer leaves the state of the models
    untouched, so no model was invoked. *)
Theorem detect_waste_input_checks
    (segmenter : option (Segmenter.t Predictor)) :
  (forall req w,
     detect_waste' None segmenter req w
     = (Raise (HTTPException 503 "Detector not loaded. Check server logs."), w))
  /\ (forall det sg w,
        detect_waste' (Some det) segmenter (mkRequest None None sg) w
        = (Raise (HTTPException 400
             "No image provided. Send 'image' file or 'image_base64' string."),
           w)
        /\ detect_waste' (Some det) segmenter (mkRequest None (Some "") sg) w
           = (Raise (HTTPException 400
                "No image provided. Send 'image' file or 'image_base64' string."),
              w))
  /\ (forall det file s sg w,
        detect_waste' (Some det) segmenter (mkRequest (Some file) (Some s) sg) w
        = detect_waste' (Some det) segmenter (mkRequest (Some file) None sg) w)
  /\ (forall detector req w detail w',
        detect_waste' detector segmenter req w
        = (Raise (HTTPException 400 detail), w') ->
        w' = w /\ detector <> None).
Proof.
  split; [reflexivity|]. split; [intros; split; reflexivity|].
  split; [reflexivity|].
  intros detector req w detail w'. unfold Main.detect_waste.
  destruct detector as [det|]; [|discriminate].
  unfold bind at 1, lift at 1.
  destruct (read_image req) as [[|b0 image_data]|e].
  - intros [= _ <-]. split; [reflexivity|discriminate].
  - unfold try_except.
    match goal with
    | |- context [let (_, _) := ?c w in _] => destruct (c w) as [[r|e] w2]
    end; discriminate.
  - intros [= _ <-]. split; [reflexivity|discriminate].
Qed.

(** C9, as the code has it.  When the preferred load and the fallback
    load both fail, the constructor of the adapter raises a
    [RuntimeError]; the startup of the service catches it and leaves
    the detector unset, so that readiness is reported false and
    [/detect] answers 503.  An adapter without a model raises
    ["Model not loaded"] from [detect], and no adapter that the
    constructor returns is without a model. *)
Theorem init_raises_when_both_loads_fail
    (model_path : option string) (w : W)
    (Hfallback : fallback_fails yolo)
    (Hpreferred :
       preferred_fails yolo
         (default (Detector.default_model_path yolo) model_path)) :
  (exists msg w',
     Detector.__init__ yolo model_path w = (Raise (Exn RuntimeError msg), w'))
  /\ (model_path = None ->
      fst (fst (lifespan yolo SAM2Segmenter w)) = None
      /\ (forall segmenter : option (Segmenter.t Predictor),
            detector_ready (root (fst (fst (lifespan yolo SAM2Segmenter w)))
                              segmenter) = false)
      /\ forall segmenter req w0,
           detect_waste' (fst (fst (lifespan yolo SAM2Segmenter w)))
             segmenter req w0
           = (Raise (HTTPException 503
                       "Detector not loaded. Check server logs."), w0))
  /\ (forall self image_data w0,
        Detector.is_ready self = false ->
        Detector.detect yolo self image_data w0
        = (Raise (Exn RuntimeError "Model not loaded"), w0))
  /\ (forall path w0 self w1,
        Detector.__init__ yolo path w0 = (Ok self, w1) ->
        Detector.is_ready self = true).
Proof.
  destruct (init_raises yolo model_path w Hfallback Hpreferred)
    as (msg & w1 & Hinit).
  split; [exists msg, w1; exact Hinit|]. split; [|split].
  - intros ->.
    assert (Hd : fst (fst (lifespan yolo SAM2Segmenter w)) = None).
    { unfold lifespan. rewrite Hinit.
      destruct (SAM2Segmenter w1) as [[s|e] w2]; reflexivity. }
    rewrite Hd. repeat split; reflexivity.
  - intros self image_data w0 Hr. unfold Detector.is_ready in Hr.
    unfold Detector.detect. destruct (Detector.model self); [discriminate|].
    reflexivity.
  - intros path w0 self w2 Hok.
    pose proof (init_cases yolo path w0) as Hc. rewrite Hok in Hc. exact Hc.
Qed.

End ServiceClaims.

(** ** The claims on concrete services *)

(** A detector world in which [ultralytics] is installed, the YOLOv10
    weights are missing, [yolov8n.pt] loads, and the model reports the
    detections [found] for every image. *)
Definition working_yolo (found : list (gmap string pyval))
    : Detector.Env unit unit :=
  {| Detector.cuda_is_available := false;
     Detector.default_model_path := "models/yolov10e.pt";
     Detector.path_exists := fun _ => false;
     Detector.import_YOLO := ret tt;
     Detector.YOLO := fun _ => ret tt;
     Detector.hasattr_names := fun _ => Ok true;
     Detector.import_YOLOv10 :=
       raise (Exn ImportError "cannot import name 'YOLOv10'");
     Detector.YOLOv10 := fun _ => ret tt;
     Detector.torch_load := fun _ _ => ret tt;
     Detector.infer := fun _ _ _ _ _ => ret found |}.

(** A detector world in which the YOLOv10 weights are present but no
    weights file can be loaded, neither the preferred one nor
    [yolov8n.pt]. *)
Definition failing_yolo : Detector.Env unit unit :=
  {| Detector.cuda_is_available := false;
     Detector.default_model_path := "models/yolov10e.pt";
     Detector.path_exists := fun _ => true;
     Detector.import_YOLO := ret tt;
     Detector.YOLO := fun _ => raise (Exn OtherException "invalid weights file");
     Detector.hasattr_names := fun _ => Ok true;
     Detector.import_YOLOv10 :=
       raise (Exn ImportError "cannot import name 'YOLOv10'");
     Detector.YOLOv10 :=
       fun _ => raise (Exn OtherException "invalid weights file");
     Detector.torch_load :=
       fun _ _ => raise (Exn OtherException "invalid load key");
     Detector.infer := fun _ _ _ _ _ => ret [] |}.

Definition sample_png (m : Segmenter.mask) : result bytes :=
  Ok [137; 80; 78; 71].

Definition sample_SAM2Segmenter : M unit (Segmenter.t unit) :=
  ret (Segmenter.mk "cpu" (Some tt)).

Definition sample_file : Main.UploadFile :=
  Main.mkUpload "photo.jpg" [255; 216; 255; 224].

(** The globals after startup, and [/detect] on them. *)
Definition startup (yolo : Detector.Env unit unit)
    : option (Detector.t unit) * option (Segmenter.t unit) :=
  fst (Main.lifespan yolo sample_SAM2Segmenter tt).

Definition serve (yolo : Detector.Env unit unit) (req : Main.request)
    : result Main.response * unit :=
  Main.detect_waste yolo failing_sam sample_png
    (fst (startup yolo)) (snd (startup yolo)) req tt.

(** C1 fails on the code.  A request with [segmentation=true] on which
    the detector finds nothing is answered by the early return of
    lines 155-160, success true, no detections, count 0, and the
    ["masks"] key is absent; the same request with one detection gets
    a ["masks"] key. *)
Theorem detect_waste_empty_omits_masks :
  fst (serve (working_yolo [])
         (Main.mkRequest (Some sample_file) None true))
  = Ok (Main.mkResponse true [] 0 None)
  /\ exists resp ms,
       fst (serve (working_yolo [sample_detection "bottle"])
              (Main.mkRequest (Some sample_file) None true)) = Ok resp
       /\ Main.masks resp = Some ms.
Proof.
  split; [reflexivity|]. eexists. eexists. split; reflexivity.
Qed.

(** C2 fails on the code.  With no detector loaded, a request without
    any image input is answered 503, not 400; with a detector loaded,
    a request that carries both a file and [image_base64] is served,
    not rejected. *)
Lemma detect_waste_input_checks_counterexample :
  fst (serve failing_yolo (Main.mkRequest None None false))
  = Raise (HTTPException 503 "Detector not loaded. Check server logs.")
  /\ fst (serve (working_yolo [])
            (Main.mkRequest (Some sample_file) (Some "aGVsbG8=") false))
     = Ok (Main.mkResponse true [] 0 None).
Proof. split; reflexivity. Qed.

Lemma detect_waste_input_checks_witness :
  serve (working_yolo []) (Main.mkRequest None None true)
  = (Raise (HTTPException 400
       "No image provided. Send 'image' file or 'image_base64' string."), tt)
  /\ serve (working_yolo [])
       (Main.mkRequest (Some sample_file) (Some "aGVsbG8=") false)
     = serve (working_yolo []) (Main.mkRequest (Some sample_file) None false).
Proof.
  destruct (detect_waste_input_checks (working_yolo []) failing_sam sample_png
              (snd (startup (working_yolo []))))
    as (_ & Hneither & Hboth & _).
  split.
  - exact (proj1 (Hneither _ true tt)).
  - exact (Hboth _ sample_file "aGVsbG8=" false tt).
Defined.

(** Two detections, the second without a box. *)
Definition two_detections : list (gmap string pyval) :=
  [sample_detection "bottle"; <["class_name" := VStr "cup"]> ∅].


(** C9 fails on the code.  In a world where neither the preferred
    weights nor [yolov8n.pt] can be loaded, the constructor does not
    complete with an adapter that reports not-ready: it raises. *)
Lemma init_raises_when_both_loads_fail_counterexample :
  fallback_fails failing_yolo
  /\ preferred_fails failing_yolo "models/yolov10e.pt"
  /\ Detector.__init__ failing_yolo None tt
     = (Raise (Exn RuntimeError
                 "Failed to load YOLOv8 fallback: invalid weights file"), tt)
  /\ ~ (exists self w',
          Detector.__init__ failing_yolo None tt = (Ok self, w')
          /\ Detector.is_ready self = false).
Proof.
  split; [right; intros w; eexists; eexists; reflexivity|].
  split; [right; intros [[] self]; cbv; discriminate|].
  split; [reflexivity|].
  intros (self & w' & H & _). discriminate H.
Qed.

Lemma init_raises_when_both_loads_fail_witness :
  fallback_fails failing_yolo
  /\ preferred_fails failing_yolo "models/yolov10e.pt"
  /\ (exists msg w',
        Detector.__init__ failing_yolo None tt
        = (Raise (Exn RuntimeError msg), w'))
  /\ fst (startup failing_yolo) = None.
Proof.
  assert (Hf : fallback_fails failing_yolo)
    by (right; intros w; eexists; eexists; reflexivity).
  assert (Hp : preferred_fails failing_yolo "models/yolov10e.pt")
    by (right; intros [[] self]; cbv; discriminate).
  split; [exact Hf|]. split; [exact Hp|].
  destruct (init_raises_when_both_loads_fail failing_yolo failing_sam
              sample_png sample_SAM2Segmenter None tt Hf Hp)
    as (Hinit & Hstart & _).
  split; [exact Hinit|]. exact (proj1 (Hstart eq_refl)).
Defined.

(** * Further properties of the code *)

(** ** inference/mapper.py: the query methods *)

Module MapperQueries.

Definition get_disposal (waste_class : string) : string :=
  default "Check local guidelines."
    (dict_get Mapper.disposal_instructions waste_class).

Definition get_reuse_ideas (waste_class : string) : list string :=
  default [] (dict_get Mapper.reuse_ideas waste_class).

End MapperQueries.

Section MapperExtras.
Import Mapper MapperQueries.

(** The three static tables have the same keys, the categories. *)
Definition category_ok (c : string) : bool :=
  match dict_get disposal_instructions c, dict_get reuse_ideas c,
        dict_get dustbin_mapping c with
  | Some d, Some [_; _; _], Some b =>
      negb (String.eqb d "") && negb (String.eqb d "Check local guidelines.")
      && existsb (String.eqb b) ["Blue Bin"; "Red Bin"; "Green Bin"; "Yellow Bin"]
  | _, _, _ => false
  end.

Lemma categories_ok (c : string) :
  In c get_all_classes -> category_ok c = true.
Proof.
  assert (Hall : forallb category_ok get_all_classes = true)
    by (vm_compute; reflexivity).
  intros H. rewrite forallb_forall in Hall. exact (Hall c H).
Qed.

Lemma dict_get_keys {V : Type} (d : list (string * V)) (k : string) :
  ~ In k (map fst d) -> dict_get d k = None.
Proof.
  intros H. apply dict_get_None. intros v Hin. apply H.
  apply in_map_iff. exists (k, v). auto.
Qed.

(** X1. For a known category the query methods answer from the
    tables: a disposal instruction that is neither empty nor the
    generic one, and exactly three reuse ideas.  For any other name
    they answer the generic instruction and no ideas. *)
Theorem get_disposal_and_ideas (waste_class : string) :
  (In waste_class get_all_classes ->
   get_disposal waste_class <> ""
   /\ get_disposal waste_class <> "Check local guidelines."
   /\ length (get_reuse_ideas waste_class) = 3%nat)
  /\ (~ In waste_class get_all_classes ->
      get_disposal waste_class = "Check local guidelines."
      /\ get_reuse_ideas waste_class = []).
Proof.
  split.
  - intros Hin. pose proof (categories_ok _ Hin) as H.
    unfold category_ok in H. unfold get_disposal, get_reuse_ideas.
    destruct (dict_get disposal_instructions waste_class) as [d|];
      [|discriminate].
    destruct (dict_get reuse_ideas waste_class) as [[|i1 [|i2 [|i3 [|]]]]|];
      try discriminate.
    destruct (dict_get dustbin_mapping waste_class); [|discriminate].
    apply andb_true_iff in H as [H _]. apply andb_true_iff in H as [H1 H2].
    change (d <> "" /\ d <> "Check local guidelines."
            /\ length [i1; i2; i3] = 3%nat).
    split; [intros ->; discriminate H1|].
    split; [intros ->; discriminate H2|reflexivity].
  - intros Hout. unfold get_disposal, get_reuse_ideas.
    rewrite (dict_get_keys disposal_instructions) by exact Hout.
    rewrite (dict_get_keys reuse_ideas) by exact Hout. split; reflexivity.
Qed.

Lemma get_disposal_and_ideas_witness :
  In "cloth" get_all_classes
  /\ ~ In "spaceship" get_all_classes
  /\ length (get_reuse_ideas "cloth") = 3%nat
  /\ get_reuse_ideas "spaceship" = [].
Proof.
  assert (Hin : In "cloth" get_all_classes) by (vm_compute; tauto).
  assert (Hout : ~ In "spaceship" get_all_classes).
  { vm_compute. intros H.
    repeat (destruct H as [H|H]; [discriminate H|]). exact H. }
  split; [exact Hin|]. split; [exact Hout|]. split.
  - exact (proj2 (proj2 (proj1 (get_disposal_and_ideas "cloth") Hin))).
  - exact (proj2 (proj2 (get_disposal_and_ideas "spaceship") Hout)).
Defined.

Lemma map_detection_fields (det : gmap string pyval) (s : string) :
  det_get det "class_name" (VStr "") = VStr s ->
  map_detection det
  = Ok (<["class" := VStr (resolve_class (Str.lower s))]>
        (<["confidence" := det_get det "confidence" (VFloat 0)]>
        (<["bbox" :=
             det_get det "bbox" (VList [VInt 0; VInt 0; VInt 0; VInt 0])]>
        (<["class_id" := det_get det "class_id" (VInt 0)]>
        (<["disposal" :=
             VStr (get_disposal (resolve_class (Str.lower s)))]>
        (<["ideas" :=
             VList (map VStr (get_reuse_ideas (resolve_class (Str.lower s))))]>
        (<["dustbin" :=
             VStr (default "Blue Bin"
                     (dict_get dustbin_mapping (resolve_class (Str.lower s))))]>
         ∅))))))).
Proof. intros H. unfold map_detection. rewrite H. reflexivity. Qed.

(** X2. A mapped detection has exactly the seven keys of the response
    schema, and its metadata always comes from the tables: the
    disposal text is the instruction of its class (never the generic
    one), the ideas are three strings, and the dustbin is one of the
    four bins. *)
Theorem map_detection_metadata (det : gmap string pyval)
    (Hname : det !! "class_name" = None
             \/ exists s, det !! "class_name" = Some (VStr s)) :
  exists mapped c d i1 i2 i3 b,
    map_detection det = Ok mapped
    /\ dom mapped
       = list_to_set ["class"; "confidence"; "bbox"; "class_id"; "disposal";
                      "ideas"; "dustbin"]
    /\ mapped !! "class" = Some (VStr c)
    /\ mapped !! "disposal" = Some (VStr d)
    /\ dict_get disposal_instructions c = Some d
    /\ d <> "Check local guidelines."
    /\ mapped !! "ideas" = Some (VList [VStr i1; VStr i2; VStr i3])
    /\ dict_get reuse_ideas c = Some [i1; i2; i3]
    /\ mapped !! "dustbin" = Some (VStr b)
    /\ dict_get dustbin_mapping c = Some b
    /\ In b ["Blue Bin"; "Red Bin"; "Green Bin"; "Yellow Bin"].
Proof.
  assert (Hs : exists s, det_get det "class_name" (VStr "") = VStr s).
  { unfold det_get. destruct Hname as [-> | [s ->]]; eexists; reflexivity. }
  destruct Hs as [s Hs]. rewrite (map_detection_fields det s Hs).
  set (c := resolve_class (Str.lower s)).
  pose proof (categories_ok c (resolve_class_in_classes _)) as H.
  unfold category_ok in H. unfold get_disposal, get_reuse_ideas.
  destruct (dict_get disposal_instructions c) as [d|] eqn:Ed; [|discriminate].
  destruct (dict_get reuse_ideas c) as [[|i1 [|i2 [|i3 [|]]]]|] eqn:Ei;
    try discriminate.
  destruct (dict_get dustbin_mapping c) as [b|] eqn:Eb; [|discriminate].
  apply andb_true_iff in H as [H Hb]. apply andb_true_iff in H as [_ Hd].
  eexists; exists c, d, i1, i2, i3, b.
  split; [reflexivity|]. split.
  { rewrite !dom_insert_L, dom_empty_L. cbn. set_solver. }
  repeat split; try assumption; try (simplify_map_eq; reflexivity).
  - intros ->. discriminate Hd.
  - apply existsb_exists in Hb as (x & Hx & Heq).
    apply String.eqb_eq in Heq. subst x. exact Hx.
Qed.

Lemma map_detection_metadata_witness :
  (sample_detection "Banana" !! "class_name" = None
   \/ exists s, sample_detection "Banana" !! "class_name" = Some (VStr s))
  /\ exists mapped c d i1 i2 i3 b,
       map_detection (sample_detection "Banana") = Ok mapped
       /\ dom mapped
          = list_to_set ["class"; "confidence"; "bbox"; "class_id";
                         "disposal"; "ideas"; "dustbin"]
       /\ mapped !! "class" = Some (VStr c)
       /\ mapped !! "disposal" = Some (VStr d)
       /\ dict_get disposal_instructions c = Some d
       /\ d <> "Check local guidelines."
       /\ mapped !! "ideas" = Some (VList [VStr i1; VStr i2; VStr i3])
       /\ dict_get reuse_ideas c = Some [i1; i2; i3]
       /\ mapped !! "dustbin" = Some (VStr b)
       /\ dict_get dustbin_mapping c = Some b
       /\ In b ["Blue Bin"; "Red Bin"; "Green Bin"; "Yellow Bin"].
Proof.
  assert (H : sample_detection "Banana" !! "class_name" = None
              \/ exists s,
                   sample_detection "Banana" !! "class_name" = Some (VStr s))
    by (right; exists "Banana"; reflexivity).
  split; [exact H|].
  exact (map_detection_metadata (sample_detection "Banana") H).
Defined.

End MapperExtras.

Section MapperLabels.
Import Mapper.

Lemma lower_char_idempotent (c : ascii) :
  Str.lower_char (Str.lower_char c) = Str.lower_char c.
Proof. destruct c as [[] [] [] [] [] [] [] []]; vm_compute; reflexivity. Qed.

Lemma lower_idempotent (s : string) : Str.lower (Str.lower s) = Str.lower s.
Proof.
  induction s as [|c s IH]; cbn [Str.lower]; [reflexivity|].
  rewrite lower_char_idempotent, IH. reflexivity.
Qed.

Lemma det_get_insert_ne (det : gmap string pyval) (k k' : string)
    (v dflt : pyval) :
  k <> k' -> det_get (<[k := v]> det) k' dflt = det_get det k' dflt.
Proof. intros H. unfold det_get. rewrite lookup_insert_ne by exact H. reflexivity. Qed.

Lemma det_get_insert_eq (det : gmap string pyval) (k : string)
    (v dflt : pyval) :
  det_get (<[k := v]> det) k dflt = v.
Proof. unfold det_get. rewrite lookup_insert_eq. reflexivity. Qed.

(** What [map_detection] returns depends on the label only through
    its lowercase form. *)
Lemma map_detection_label (det : gmap string pyval) (s1 s2 : string) :
  Str.lower s1 = Str.lower s2 ->
  map_detection (<["class_name" := VStr s1]> det)
  = map_detection (<["class_name" := VStr s2]> det).
Proof.
  intros H.
  rewrite (map_detection_fields _ s1) by apply det_get_insert_eq.
  rewrite (map_detection_fields _ s2) by apply det_get_insert_eq.
  rewrite !det_get_insert_ne by discriminate. rewrite H. reflexivity.
Qed.

(** X3. The mapping is case-insensitive: a detection and the same
    detection with its label lowercased are mapped alike. *)
Theorem map_detection_case_insensitive (det : gmap string pyval) (s : string) :
  map_detection (<["class_name" := VStr s]> det)
  = map_detection (<["class_name" := VStr (Str.lower s)]> det).
Proof.
  apply map_detection_label. symmetry. apply lower_idempotent.
Qed.



Lemma category_fixed (c : string) :
  In c get_all_classes -> resolve_class (Str.lower c) = c.
Proof.
  assert (Hall : forallb (fun c => String.eqb (resolve_class (Str.lower c)) c)
                   get_all_classes = true) by (vm_compute; reflexivity).
  intros H. rewrite forallb_forall in Hall.
  apply String.eqb_eq. exact (Hall c H).
Qed.

(** X5. The categories are fixed points of the mapping: when a
    detection is mapped to class [c], the same detection labelled [c]
    is mapped to the very same result.  In particular every category
    listed by [get_all_classes] is the class of some label. *)
Theorem map_detection_idempotent (det mapped : gmap string pyval) (c : string)
    (Hmap : map_detection det = Ok mapped)
    (Hclass : mapped !! "class" = Some (VStr c)) :
  map_detection (<["class_name" := VStr c]> det) = Ok mapped
  /\ In c get_all_classes.
Proof.
  unfold map_detection in Hmap.
  destruct (det_get det "class_name" (VStr "")) as [|s| | |] eqn:Hs;
    try discriminate.
  fold (map_detection det) in *.
  assert (Hc : c = resolve_class (Str.lower s)).
  { injection Hmap as <-. simplify_map_eq. reflexivity. }
  split; [|rewrite Hc; apply resolve_class_in_classes].
  rewrite (map_detection_fields _ c) by apply det_get_insert_eq.
  rewrite !det_get_insert_ne by discriminate.
  rewrite (category_fixed c) by (rewrite Hc; apply resolve_class_in_classes).
  rewrite <- Hmap, Hc. reflexivity.
Qed.

Lemma map_detection_idempotent_witness :
  exists mapped,
    map_detection (sample_detection "Teacup") = Ok mapped
    /\ mapped !! "class" = Some (VStr "paper_cup")
    /\ map_detection
         (<["class_name" := VStr "paper_cup"]> (sample_detection "Teacup"))
       = Ok mapped.
Proof.
  destruct (map_detection_class (sample_detection "Teacup") "Teacup" eq_refl)
    as (mapped & Hm & Hc & _).
  exists mapped. split; [exact Hm|]. split; [exact Hc|].
  exact (proj1 (map_detection_idempotent (sample_detection "Teacup") mapped
                  "paper_cup" Hm Hc)).
Defined.

End MapperLabels.

(** ** utils/image_io.py: errors, ranges and prefixes *)

Section ImageIOExtras.
Import Base64 ImageIO.

Lemma append_cons (x : ascii) (a b : string) :
  String x a +:+ b = String x (a +:+ b).
Proof. reflexivity. Qed.

Lemma append_assoc (a b c : string) : (a +:+ b) +:+ c = a +:+ (b +:+ c).
Proof.
  induction a as [|x a IH]; [reflexivity|].
  rewrite !append_cons, IH. reflexivity.
Qed.

Lemma has_char_app (c : ascii) (a b : string) :
  Str.has_char c (a +:+ b) = Str.has_char c a || Str.has_char c b.
Proof.
  induction a as [|x a IH]; [reflexivity|].
  rewrite append_cons. cbn [Str.has_char]. rewrite IH.
  apply orb_assoc.
Qed.

(** Splitting at the first separator. *)
Lemma split_app_sep (pre rest : string) :
  Str.has_char ","%char pre = false ->
  split ","%char (pre +:+ String ","%char rest)
  = pre :: split ","%char rest.
Proof.
  induction pre as [|c pre IH].
  - intros _. change ("" +:+ String ","%char rest) with (String ","%char rest).
    cbn [split]. rewrite Ascii.eqb_refl. reflexivity.
  - rewrite append_cons. cbn [Str.has_char split].
    intros H. apply orb_false_iff in H as [Hc Hp].
    rewrite Hc, (IH Hp). reflexivity.
Qed.

Lemma split_nonempty (s : string) : split ","%char s <> [].
Proof.
  destruct s as [|c s]; cbn [split]; [discriminate|].
  destruct (Ascii.eqb c ","%char); [discriminate|].
  destruct (split ","%char s); discriminate.
Qed.

(** A string with a comma splits into at least two pieces, so the
    index 1 of [decode_image] is always in range. *)
Lemma split_has_sep (s : string) :
  Str.has_char ","%char s = true ->
  exists a b rest, split ","%char s = a :: b :: rest.
Proof.
  induction s as [|c s IH]; cbn [Str.has_char split]; [discriminate|].
  destruct (Ascii.eqb c ","%char) eqn:Ec.
  - intros _. destruct (split ","%char s) as [|b rest] eqn:E.
    + destruct (split_nonempty s E).
    + exists EmptyString, b, rest. reflexivity.
  - cbn [orb]. intros H. destruct (IH H) as (a & b & rest & ->).
    exists (String c a), b, rest. reflexivity.
Qed.

(** X6. [decode_image] fails in one way only: with a [ValueError]
    whose message starts with ["Failed to decode base64 image: "].
    Taking index 1 of the split never raises. *)
Theorem decode_image_raises_only_ValueError (base64_string : string)
    (e : exn) (Hraise : decode_image base64_string = Raise e) :
  exists msg,
    e = Exn ValueError ("Failed to decode base64 image: " +:+ msg).
Proof.
  unfold decode_image in Hraise.
  destruct (Str.has_char ","%char base64_string) eqn:Hc.
  - destruct (split_has_sep _ Hc) as (a & b & rest & Hs).
    rewrite Hs in Hraise.
    destruct (b64decode (strip b)) as [x|e']; [discriminate|].
    injection Hraise as <-. eexists. reflexivity.
  - destruct (b64decode (strip base64_string)) as [x|e']; [discriminate|].
    injection Hraise as <-. eexists. reflexivity.
Qed.

Lemma decode_image_raises_only_ValueError_witness :
  decode_image "not,base64!" = Raise (Exn ValueError
    "Failed to decode base64 image: Incorrect padding")
  /\ exists msg,
       Exn ValueError "Failed to decode base64 image: Incorrect padding"
       = Exn ValueError ("Failed to decode base64 image: " +:+ msg).
Proof.
  split; [reflexivity|].
  exact (decode_image_raises_only_ValueError "not,base64!" _ eq_refl).
Defined.

Lemma land_255_byte (x : Z) : is_byte (Z.land x 255).
Proof.
  change 255 with (Z.ones 8). rewrite Z.land_ones by lia.
  unfold is_byte. change (2 ^ 8) with 256. apply Z.mod_pos_bound. lia.
Qed.

Lemma a2b_loop_bytes (ascii_data : string) :
  forall quad_pos leftchar pads bin_data image_bytes,
    Forall is_byte bin_data ->
    a2b_loop ascii_data quad_pos leftchar pads bin_data = Ok image_bytes ->
    Forall is_byte image_bytes.
Proof.
  induction ascii_data as [|c rest IH];
    intros quad_pos leftchar pads bin_data image_bytes Hb; cbn [a2b_loop].
  - destruct (quad_pos =? 0); [intros [= <-]; exact Hb|].
    destruct (quad_pos =? 1); discriminate.
  - assert (Hsnoc : forall x, Forall is_byte (bin_data ++ [Z.land x 255])).
    { intros x. apply Forall_app. split; [exact Hb|].
      constructor; [apply land_255_byte|constructor]. }
    destruct (Ascii.eqb c BASE64_PAD).
    + destruct ((2 <=? quad_pos) && (4 <=? quad_pos + (pads + 1))).
      * intros [= <-]. exact Hb.
      * apply IH, Hb.
    + destruct (table_a2b c) as [v|]; [|apply IH, Hb].
      destruct (quad_pos =? 0); [apply IH, Hb|].
      destruct (quad_pos =? 1); [apply IH, Hsnoc|].
      destruct (quad_pos =? 2); apply IH, Hsnoc.
Qed.

(** X7. Whatever string it is given, the bytes that [decode_image]
    returns are bytes: every element is in [0, 256). *)
Theorem decode_image_bytes_in_range (base64_string : string)
    (image_bytes : bytes)
    (Hok : decode_image base64_string = Ok image_bytes) :
  Forall is_byte image_bytes.
Proof.
  assert (Hd : forall s b, b64decode s = Ok b -> Forall is_byte b).
  { intros s b. unfold b64decode, a2b_base64.
    destruct (all_ascii s); [|discriminate].
    apply a2b_loop_bytes. constructor. }
  unfold decode_image in Hok.
  destruct (Str.has_char ","%char base64_string).
  - destruct (split ","%char base64_string) as [|a [|b rest]];
      try discriminate.
    destruct (b64decode (strip b)) as [x|e'] eqn:E; [|discriminate].
    injection Hok as <-. exact (Hd _ _ E).
  - destruct (b64decode (strip base64_string)) as [x|e'] eqn:E;
      [|discriminate].
    injection Hok as <-. exact (Hd _ _ E).
Qed.

Lemma decode_image_bytes_in_range_witness :
  decode_image "data:image/png;base64,/+8=" = Ok [255; 239]
  /\ Forall is_byte [255; 239].
Proof.
  split; [reflexivity|].
  exact (decode_image_bytes_in_range "data:image/png;base64,/+8=" _ eq_refl).
Defined.

(** What stands before the first comma is dropped. *)
Lemma decode_image_skip_prefix (prefix payload : string) :
  Str.has_char ","%char prefix = false ->
  Str.has_char ","%char payload = false ->
  decode_image (prefix +:+ String ","%char payload) = decode_image payload.
Proof.
  intros Hprefix Hpayload. unfold decode_image.
  rewrite has_char_app. cbn [Str.has_char]. rewrite Ascii.eqb_refl.
  rewrite orb_true_r.
  rewrite (split_app_sep _ _ Hprefix), (split_no_sep _ Hpayload), Hpayload.
  reflexivity.
Qed.

(** The bare payload of a byte string decodes to it. *)
Lemma decode_image_b64encode (b : bytes) :
  Forall is_byte b -> decode_image (b64encode b) = Ok b.
Proof.
  intros Hb. rewrite (decode_image_plain _ (b64encode_plain b)).
  unfold a2b_base64. rewrite (a2b_loop_encode b Hb). reflexivity.
Qed.

(** X8. The data-URL prefix is not looked at: with any text free of
    commas before the first comma, [decode_image] decodes what follows
    it, as it would decode that payload alone. *)
Theorem decode_image_any_prefix (prefix payload : string)
    (Hprefix : Str.has_char ","%char prefix = false)
    (Hpayload : Str.has_char ","%char payload = false) :
  decode_image (prefix +:+ String ","%char payload) = decode_image payload.
Proof. exact (decode_image_skip_prefix prefix payload Hprefix Hpayload). Qed.

Lemma decode_image_any_prefix_witness :
  Str.has_char ","%char "data:image/jpeg;base64" = false
  /\ Str.has_char ","%char "aGk=" = false
  /\ decode_image "data:image/jpeg;base64,aGk=" = decode_image "aGk=".
Proof.
  split; [reflexivity|]. split; [reflexivity|].
  exact (decode_image_any_prefix "data:image/jpeg;base64" "aGk="
           eq_refl eq_refl).
Defined.

(** X9. The round trip of C6 holds for every [format] whose lowercase
    form has no comma: ["JPEG"], ["webp"], and so on. *)
Theorem decode_encode_roundtrip_any_format (b : bytes) (format : string)
    (Hb : Forall is_byte b)
    (Hformat : Str.has_char ","%char (Str.lower format) = false) :
  decode_image (encode_image_to_base64 b format) = Ok b.
Proof.
  unfold encode_image_to_base64.
  change (";base64," +:+ b64encode b)
    with (";base64" +:+ String ","%char (b64encode b)).
  rewrite <- !append_assoc.
  rewrite decode_image_skip_prefix.
  - exact (decode_image_b64encode b Hb).
  - rewrite !has_char_app, Hformat. reflexivity.
  - apply plain_no_comma, b64encode_plain.
Qed.

Lemma decode_encode_roundtrip_any_format_witness :
  Forall is_byte [255; 216; 255; 224]
  /\ Str.has_char ","%char (Str.lower "JPEG") = false
  /\ decode_image (encode_image_to_base64 [255; 216; 255; 224] "JPEG")
     = Ok [255; 216; 255; 224].
Proof.
  assert (H : Forall is_byte [255; 216; 255; 224])
    by (repeat constructor; unfold is_byte; lia).
  split; [exact H|]. split; [reflexivity|].
  exact (decode_encode_roundtrip_any_format [255; 216; 255; 224] "JPEG"
           H eq_refl).
Defined.

End ImageIOExtras.

Section ImageIOWhitespace.
Import Base64 ImageIO.

Fixpoint all_space (s : string) : bool :=
  match s with
  | EmptyString => true
  | String c s' => is_space c && all_space s'
  end.

Lemma space_no_comma (s : string) :
  all_space s = true -> Str.has_char ","%char s = false.
Proof.
  induction s as [|c s IH]; cbn [all_space Str.has_char]; [reflexivity|].
  intros H. apply andb_true_iff in H as [Hc Hs]. rewrite (IH Hs).
  destruct (Ascii.eqb c ","%char) eqn:E; [|reflexivity].
  apply Ascii.eqb_eq in E. subst c. discriminate Hc.
Qed.

Lemma lstrip_space (l s : string) :
  all_space l = true -> lstrip (l +:+ s) = lstrip s.
Proof.
  induction l as [|c l IH]; [reflexivity|].
  rewrite append_cons. cbn [all_space lstrip]. intros H.
  apply andb_true_iff in H as [-> Hl]. exact (IH Hl).
Qed.

Lemma rstrip_space (r : string) : all_space r = true -> rstrip r = "".
Proof.
  induction r as [|c r IH]; cbn [all_space rstrip]; [reflexivity|].
  intros H. apply andb_true_iff in H as [-> Hr]. rewrite (IH Hr).
  reflexivity.
Qed.

Lemma rstrip_app_space (s r : string) :
  all_space r = true -> rstrip (s +:+ r) = rstrip s.
Proof.
  intros Hr. induction s as [|c s IH].
  - change ("" +:+ r) with r. apply rstrip_space, Hr.
  - rewrite append_cons. cbn [rstrip]. rewrite IH. reflexivity.
Qed.

Lemma lstrip_all_space (r : string) : all_space r = true -> lstrip r = "".
Proof.
  induction r as [|c r IH]; cbn [all_space lstrip]; [reflexivity|].
  intros H. apply andb_true_iff in H as [-> Hr]. exact (IH Hr).
Qed.

Lemma strip_app_space (s r : string) :
  all_space r = true -> strip (s +:+ r) = strip s.
Proof.
  intros Hr. unfold strip. induction s as [|c s IH].
  - change ("" +:+ r) with r. rewrite (lstrip_all_space r Hr). reflexivity.
  - rewrite append_cons. cbn [lstrip].
    destruct (is_space c); [exact IH|].
    rewrite <- append_cons. apply rstrip_app_space, Hr.
Qed.

(** X10. White space around the payload does not matter: for a
    payload without a comma, [decode_image] gives the same result
    with any white space before and after it. *)
Theorem decode_image_ignores_outer_space (l s r : string)
    (Hl : all_space l = true) (Hr : all_space r = true)
    (Hs : Str.has_char ","%char s = false) :
  decode_image (l +:+ s +:+ r) = decode_image s.
Proof.
  unfold decode_image.
  rewrite !has_char_app, Hs, (space_no_comma l Hl), (space_no_comma r Hr).
  cbn [orb]. unfold strip at 1.
  rewrite (lstrip_space l (s +:+ r) Hl).
  fold (strip (s +:+ r)). rewrite (strip_app_space s r Hr). reflexivity.
Qed.

Lemma decode_image_ignores_outer_space_witness :
  all_space "  " = true
  /\ all_space (String "010"%char EmptyString) = true
  /\ Str.has_char ","%char "aGk=" = false
  /\ decode_image ("  " +:+ "aGk=" +:+ String "010"%char EmptyString)
     = decode_image "aGk=".
Proof.
  split; [reflexivity|]. split; [reflexivity|]. split; [reflexivity|].
  exact (decode_image_ignores_outer_space "  " "aGk="
           (String "010"%char EmptyString) eq_refl eq_refl eq_refl).
Defined.

End ImageIOWhitespace.

(** ** inference/detector.py: what the constructor leaves *)

Section DetectorExtras.
Context {W Model : Type} (env : Detector.Env W Model).
Import Detector.

(** The loaders never touch the device and the thresholds. *)
Definition same_config (a b : t Model) : Prop :=
  device a = device b
  /\ conf_threshold a = conf_threshold b
  /\ iou_threshold a = iou_threshold b.

(** A loader outcome: on success the model is set and named [name1]
    or [name2]; in every case the configuration is kept. *)
Definition loads (name1 name2 : string) (self : t Model)
    (r : result unit * (W * t Model)) : Prop :=
  same_config self (snd (snd r))
  /\ match fst r with
     | Ok _ =>
         is_ready (snd (snd r)) = true
         /\ (model_name (snd (snd r)) = Some name1
             \/ model_name (snd (snd r)) = Some name2)
     | Raise _ => True
     end.

Lemma same_config_refl (a : t Model) : same_config a a.
Proof. repeat split. Qed.

Lemma same_config_trans (a b c : t Model) :
  same_config a b -> same_config b c -> same_config a c.
Proof. intros (? & ? & ?) (? & ? & ?). repeat split; congruence. Qed.

Lemma fallback_loads (s : W * t Model) :
  loads "yolov8n" "yolov8n" (snd s) (_load_yolov8_fallback env s).
Proof.
  unfold loads, _load_yolov8_fallback, try_except, bind, world, world_model,
    set_model, set_model_name, raise.
  destruct (import_YOLO env (fst s)) as [[[]|e] w1]; cbn [fst snd].
  - destruct (YOLO env "yolov8n.pt" w1) as [[m|e] w2]; cbn [fst snd].
    + split; [repeat split|]. split; [reflexivity|left; reflexivity].
    + destruct (is_class ImportError e); cbn [fst snd];
        (split; [apply same_config_refl|exact I]).
  - destruct (is_class ImportError e); cbn [fst snd];
      (split; [apply same_config_refl|exact I]).
Qed.

(** The try around the ultralytics loaders keeps the configuration,
    and names the model when it returns. *)
Lemma load_yolov10_try_frame (model_path : string) (s : W * t Model) :
  same_config (snd s) (snd (snd (_load_yolov10_try env model_path s)))
  /\ (fst (_load_yolov10_try env model_path s) = Ok true ->
      model_name (snd (snd (_load_yolov10_try env model_path s)))
      = Some "yolov10e").
Proof.
  unfold _load_yolov10_try, try_except, bind, world, world_model,
    set_model, set_model_name, raise, ret, lift.
  destruct (import_YOLO env (fst s)) as [[[]|e] w1]; cbn [fst snd].
  - destruct (YOLO env model_path w1) as [[m|e] w2]; cbn [fst snd].
    + destruct (hasattr_names env m) as [[|]|e]; cbn [fst snd].
      * split; [repeat split|reflexivity].
      * split; [repeat split|discriminate].
      * destruct (import_YOLOv10 env w2) as [[[]|e1] w3]; cbn [fst snd].
        -- destruct (YOLOv10 env model_path w3) as [[m1|e1] w4];
             cbn [fst snd].
           ++ split; [repeat split|reflexivity].
           ++ destruct (is_class ImportError e1); cbn [fst snd];
                (split; [repeat split|discriminate]).
        -- destruct (is_class ImportError e1); cbn [fst snd];
             (split; [repeat split|discriminate]).
    + destruct (import_YOLOv10 env w2) as [[[]|e1] w3]; cbn [fst snd].
      * destruct (YOLOv10 env model_path w3) as [[m1|e1] w4]; cbn [fst snd].
        -- split; [repeat split|reflexivity].
        -- destruct (is_class ImportError e1); cbn [fst snd];
             (split; [repeat split|discriminate]).
      * destruct (is_class ImportError e1); cbn [fst snd];
          (split; [repeat split|discriminate]).
  - destruct (is_class ImportError e); cbn [fst snd];
      (split; [repeat split|discriminate]).
Qed.

Lemma loads_weaken (n : string) (self : t Model) r :
  loads "yolov8n" "yolov8n" self r -> loads n "yolov8n" self r.
Proof.
  unfold loads. intros [Hc Hr]. split; [exact Hc|].
  destruct (fst r); [|exact I]. destruct Hr as [Hr [Hn|Hn]]; auto.
Qed.

Lemma loads_config (n1 n2 : string) (a b : t Model) r :
  same_config a b -> loads n1 n2 b r -> loads n1 n2 a r.
Proof.
  unfold loads. intros Hab [Hc Hr]. split; [|exact Hr].
  exact (same_config_trans _ _ _ Hab Hc).
Qed.

Lemma try_fallback_loads (c : M (W * t Model) unit) (s : W * t Model) :
  loads "yolov10e" "yolov8n" (snd s) (c s) ->
  loads "yolov10e" "yolov8n" (snd s)
    (try_except c (fun _ => _load_yolov8_fallback env) s).
Proof.
  unfold try_except. destruct (c s) as [[[]|e] s'] eqn:E.
  - intros H. exact H.
  - intros [Hc _]. cbn [fst snd] in Hc.
    apply (loads_config _ _ _ (snd s') _ Hc).
    apply loads_weaken, fallback_loads.
Qed.

Lemma load_yolov10_loads (model_path : string) (s : W * t Model) :
  loads "yolov10e" "yolov8n" (snd s) (_load_yolov10 env model_path s).
Proof.
  unfold _load_yolov10.
  destruct (load_yolov10_try_frame model_path s) as [Hc Hname].
  pose proof (load_yolov10_try_ready env model_path s) as Hready.
  apply try_fallback_loads. unfold bind at 1.
  destruct (_load_yolov10_try env model_path s) as [[[|]|e] s1];
    cbn [fst snd] in *.
  - split; [exact Hc|]. cbn [fst snd ret].
    split; [exact (Hready _ eq_refl)|left; exact (Hname eq_refl)].
  - apply (loads_config _ _ _ (snd s1) _ Hc).
    apply try_fallback_loads. unfold bind, world.
    destruct (torch_load env model_path (_detect_device env) (fst s1))
      as [[[]|e] w2]; cbn [fst snd].
    + apply loads_weaken. exact (fallback_loads (w2, snd s1)).
    + split; [apply same_config_refl|exact I].
  - split; [exact Hc|exact I].
Qed.

(** The shape of every adapter that the constructor returns. *)
#[warnings="-inexact-float"]
Lemma init_result (model_path : option string) (w w' : W) (self : t Model) :
  __init__ env model_path w = (Ok self, w') ->
  exists m name,
    self = mk (_detect_device env) (Some m) (Some name) 0.25 0.45
    /\ (name = "yolov10e" \/ name = "yolov8n")
    /\ (path_exists env (default (default_model_path env) model_path) = false
        -> name = "yolov8n").
Proof.
  unfold __init__.
  set (self0 := mk (_detect_device env) None None _ _).
  destruct (path_exists env (default (default_model_path env) model_path))
    eqn:Ex.
  - pose proof (load_yolov10_loads
                  (default (default_model_path env) model_path) (w, self0))
      as [Hc Hr].
    destruct (_load_yolov10 env _ (w, self0)) as [[[]|e] [w1 self1]];
      [|discriminate].
    intros [= <- <-]. cbn [fst snd] in Hc, Hr.
    destruct Hc as (Hd & Hct & Hit). destruct Hr as [Hready Hn].
    destruct self1 as [d [m|] n c i]; [|discriminate Hready].
    cbn in Hd, Hct, Hit, Hn. subst d c i.
    destruct Hn as [Hn|Hn]; subst n; eexists; eexists;
      (split; [reflexivity|]); (split; [auto|discriminate]).
  - pose proof (fallback_loads (w, self0)) as [Hc Hr].
    destruct (_load_yolov8_fallback env (w, self0)) as [[[]|e] [w1 self1]];
      [|discriminate].
    intros [= <- <-]. cbn [fst snd] in Hc, Hr.
    destruct Hc as (Hd & Hct & Hit). destruct Hr as [Hready Hn].
    destruct self1 as [d [m|] n c i]; [|discriminate Hready].
    cbn in Hd, Hct, Hit, Hn. subst d c i.
    assert (n = Some "yolov8n") by (destruct Hn; assumption). subst n.
    eexists; eexists. split; [reflexivity|]. split; [auto|reflexivity].
Qed.

(** X11. Every adapter that the constructor returns has a model, the
    device chosen at construction (["cuda"] or ["cpu"]), the
    thresholds 0.25 and 0.45, and reports ["yolov10e"] or ["yolov8n"]
    as its model name, ["yolov8n"] whenever the preferred weights
    file is missing. *)
#[warnings="-inexact-float"]
Theorem init_adapter_state
    (model_path : option string) (w w' : W) (self : t Model)
    (Hinit : __init__ env model_path w = (Ok self, w')) :
  is_ready self = true
  /\ device self = (if cuda_is_available env then "cuda" else "cpu")
  /\ conf_threshold self = 0.25%float
  /\ iou_threshold self = 0.45%float
  /\ (model_name self = Some "yolov10e" \/ model_name self = Some "yolov8n")
  /\ (path_exists env (default (default_model_path env) model_path) = false
      -> model_name self = Some "yolov8n").
Proof.
  destruct (init_result _ _ _ _ Hinit) as (m & name & -> & Hn & Hp).
  cbn. repeat split.
  - destruct Hn as [-> | ->]; auto.
  - intros H. rewrite (Hp H). reflexivity.
Qed.

(** X12. Detection parameters are fixed at construction: on every
    adapter that the constructor returns, [detect] runs the loaded
    model on the caller's bytes with confidence 0.25, overlap 0.45 and
    the device chosen at construction, and adds nothing of its own. *)
#[warnings="-inexact-float"]
Theorem detect_uses_fixed_parameters
    (model_path : option string) (w w' : W) (self : t Model)
    (Hinit : __init__ env model_path w = (Ok self, w')) :
  exists m,
    model self = Some m
    /\ forall image_data w0,
         detect env self image_data w0
         = infer env m image_data 0.25 0.45
             (if cuda_is_available env then "cuda" else "cpu") w0.
Proof.
  destruct (init_result _ _ _ _ Hinit) as (m & name & -> & _).
  exists m. split; reflexivity.
Qed.

End DetectorExtras.

Lemma init_adapter_state_witness :
  exists self,
    Detector.__init__ (working_yolo []) None tt = (Ok self, tt)
    /\ Detector.is_ready self = true
    /\ Detector.device self = "cpu"
    /\ Detector.model_name self = Some "yolov8n".
Proof.
  eexists. split; [reflexivity|].
  destruct (init_adapter_state (working_yolo []) None tt tt _ eq_refl)
    as (Hr & Hd & _ & _ & _ & Hn).
  split; [exact Hr|]. split; [exact Hd|]. exact (Hn eq_refl).
Defined.

#[warnings="-inexact-float"]
Lemma detect_uses_fixed_parameters_witness :
  exists self,
    Detector.__init__ (working_yolo two_detections) None tt = (Ok self, tt)
    /\ Detector.detect (working_yolo two_detections) self [255; 216] tt
       = Detector.infer (working_yolo two_detections) tt [255; 216] 0.25 0.45
           "cpu" tt.
Proof.
  eexists. split; [reflexivity|].
  destruct (detect_uses_fixed_parameters (working_yolo two_detections) None
              tt tt _ eq_refl) as (m & Hm & Hd).
  injection Hm as <-. exact (Hd [255; 216] tt).
Defined.

(** ** inference/detector.py: from boxes to detections *)

Module DetectorParse.

(** One row of [results[0].boxes], after [.cpu().numpy()] and the
    conversions [float(...)] and [int(...)]: the corners of the box,
    the confidence and the class id. *)
Record box : Type := mkBox {
  xyxy : float * float * float * float;
  conf : float;
  cls : Z
}.

(** Line 166.  [names] is [self.model.names], a dict from class id to
    name, or [None] when the model has no such attribute. *)
Definition class_name_of (names : option (gmap Z string)) (class_id : Z)
    : result string :=
  match names with
  | Some d =>
      match d !! class_id with
      | Some class_name => Ok class_name
      | None => Raise (Exn KeyError (pretty class_id))
      end
  | None => Ok ("class_" +:+ pretty class_id)
  end.

(** Lines 160-173: the detection dict of one box. *)
Definition detection_of (names : option (gmap Z string)) (b : box)
    : result (gmap string pyval) :=
  match class_name_of names (cls b) with
  | Raise e => Raise e
  | Ok class_name =>
      let '(x1, y1, x2, y2) := xyxy b in
      Ok (<["bbox" := VList [VFloat x1; VFloat y1; VFloat x2; VFloat y2]]>
          (<["confidence" := VFloat (conf b)]>
          (<["class_id" := VInt (cls b)]>
          (<["class_name" := VStr class_name]> ∅))))
  end.

(** The loop of lines 159-173. *)
Fixpoint parse_boxes (names : option (gmap Z string)) (boxes : list box)
    : result (list (gmap string pyval)) :=
  match boxes with
  | [] => Ok []
  | b :: rest =>
      match detection_of names b with
      | Raise e => Raise e
      | Ok det =>
          match parse_boxes names rest with
          | Ok detections => Ok (det :: detections)
          | Raise e => Raise e
          end
      end
  end.

(** Lines 155-176.  [results] is what the model call returned, each
    result with its [boxes] or [None]. *)
Definition parse_results (names : option (gmap Z string))
    (results : list (option (list box))) : result (list (gmap string pyval)) :=
  match results with
  | Some boxes :: _ => parse_boxes names boxes
  | _ => Ok []
  end.

End DetectorParse.

Section DetectorParseFacts.
Import DetectorParse.

(** A detection as the adapter builds it: the four keys, a box of
    four floats, a float, an integer and a string. *)
Definition well_formed (det : gmap string pyval) : Prop :=
  exists x1 y1 x2 y2 c i n,
    det = <["bbox" := VList [VFloat x1; VFloat y1; VFloat x2; VFloat y2]]>
          (<["confidence" := VFloat c]>
          (<["class_id" := VInt i]>
          (<["class_name" := VStr n]> ∅))).

Lemma detection_of_well_formed names b det :
  detection_of names b = Ok det -> well_formed det.
Proof.
  unfold detection_of.
  destruct (class_name_of names (cls b)) as [n|e]; [|discriminate].
  destruct (xyxy b) as [[[x1 y1] x2] y2]. intros [= <-].
  exists x1, y1, x2, y2, (conf b), (cls b), n. reflexivity.
Qed.

Lemma parse_boxes_spec names boxes dets :
  parse_boxes names boxes = Ok dets ->
  length dets = length boxes /\ Forall well_formed dets.
Proof.
  revert dets. induction boxes as [|b rest IH]; intros dets;
    cbn [parse_boxes].
  - intros [= <-]. split; [reflexivity|constructor].
  - destruct (detection_of names b) as [det|e] eqn:Ed; [|discriminate].
    destruct (parse_boxes names rest) as [ds|e]; [|discriminate].
    intros [= <-]. destruct (IH ds eq_refl) as [Hl Hf].
    split; [cbn [length]; congruence|].
    constructor; [exact (detection_of_well_formed _ _ _ Ed)|exact Hf].
Qed.

Lemma parse_boxes_error names boxes e :
  parse_boxes names boxes = Raise e ->
  exists d b,
    names = Some d /\ In b boxes /\ d !! cls b = None
    /\ e = Exn KeyError (pretty (cls b)).
Proof.
  induction boxes as [|b rest IH]; cbn [parse_boxes]; [discriminate|].
  unfold detection_of at 1, class_name_of.
  destruct names as [d|].
  - destruct (d !! cls b) as [n|] eqn:En.
    + destruct (xyxy b) as [[[x1 y1] x2] y2].
      destruct (parse_boxes (Some d) rest) as [ds|e'] eqn:Ep; [discriminate|].
      intros [= <-]. destruct (IH eq_refl) as (d' & b' & Hd & Hin & Hn & He).
      exists d', b'. split; [exact Hd|]. split; [right; exact Hin|]. auto.
    + intros [= <-]. exists d, b. split; [reflexivity|].
      split; [left; reflexivity|]. auto.
  - destruct (xyxy b) as [[[x1 y1] x2] y2].
    destruct (parse_boxes None rest) as [ds|e'] eqn:Ep; [discriminate|].
    intros [= <-]. destruct (IH eq_refl) as (d' & b' & Hd & _).
    discriminate Hd.
Qed.

Lemma parse_results_outcome (names : option (gmap Z string))
    (results : list (option (list box))) :
  match parse_results names results with
  | Ok dets =>
      Forall well_formed dets
      /\ length dets
         = match results with
           | Some boxes :: _ => length boxes
           | _ => 0%nat
           end
  | Raise e =>
      exists d boxes rest b,
        names = Some d /\ results = Some boxes :: rest /\ In b boxes
        /\ d !! cls b = None /\ e = Exn KeyError (pretty (cls b))
  end.
Proof.
  unfold parse_results. destruct results as [|[boxes|] rest];
    try (split; [constructor|reflexivity]).
  destruct (parse_boxes names boxes) as [dets|e] eqn:E.
  - destruct (parse_boxes_spec _ _ _ E) as [Hl Hf]. split; assumption.
  - destruct (parse_boxes_error _ _ _ E) as (d & b & Hd & Hin & Hn & He).
    exists d, boxes, rest, b. auto.
Qed.


Lemma well_formed_maps det :
  well_formed det -> exists mapped, Mapper.map_detection det = Ok mapped.
Proof.
  intros (x1 & y1 & x2 & y2 & c & i & n & ->).
  destruct (map_detection_class
              (<["bbox" := VList [VFloat x1; VFloat y1; VFloat x2; VFloat y2]]>
               (<["confidence" := VFloat c]>
               (<["class_id" := VInt i]>
               (<["class_name" := VStr n]> ∅)))) n)
    as (mapped & Hm & _).
  - unfold Mapper.det_get. simplify_map_eq. reflexivity.
  - exists mapped. exact Hm.
Qed.

Lemma well_formed_map_loop dets :
  Forall well_formed dets ->
  exists mapped, Main.map_loop dets = Ok mapped.
Proof.
  induction 1 as [|det dets Hd _ IH]; cbn [Main.map_loop].
  - exists []. reflexivity.
  - destruct (well_formed_maps det Hd) as [m ->].
    destruct IH as [ms ->]. eexists. reflexivity.
Qed.

End DetectorParseFacts.

(** ** inference/segmenter.py: what [segment] lets through *)

(** A segmenter world in which the predictor answers one mask. *)
Definition working_sam : Segmenter.Env unit (nat * nat) unit unit :=
  {| Segmenter.image_open := fun _ => Ok (2%nat, 3%nat);
     Segmenter.shape := fun i => i;
     Segmenter.hasattr_set_image := fun _ => true;
     Segmenter.set_image := fun _ _ => ret tt;
     Segmenter.predict := fun _ _ => ret [tt];
     Segmenter.astype_uint8 := fun _ => Ok [[1; 0; 1]; [0; 1; 0]];
     Segmenter.mid_other :=
       fun _ _ => Raise (Exn TypeError "unsupported operand type(s)") |}.

Section SegmenterExtras.
Context {W Image RawMask Predictor : Type}
  (env : Segmenter.Env W Image RawMask Predictor).
Import Segmenter.

(** X14. An exception that leaves [segment] was raised before the
    predictor was touched: the state of the models is unchanged, and
    the cause is a missing predictor, image bytes that do not decode,
    a box that does not unpack into four values, or values that
    cannot be averaged.  Whatever fails after that is swallowed. *)
Theorem segment_raises_before_predictor
    (self : t Predictor) (image_data : bytes) (bbox : pyval) (w w' : W)
    (e : exn)
    (Hraise : segment env self image_data bbox w = (Raise e, w')) :
  w' = w
  /\ ((predictor self = None
       /\ e = Exn RuntimeError "SAM2 predictor not loaded")
      \/ image_open env image_data = Raise e
      \/ unpack4 bbox = Raise e
      \/ exists x1 y1 x2 y2,
           unpack4 bbox = Ok (x1, y1, x2, y2)
           /\ (midpoint env x1 x2 = Raise e
               \/ midpoint env y1 y2 = Raise e)).
Proof.
  unfold segment in Hraise.
  destruct (predictor self) as [p|].
  2: { injection Hraise as <- <-. split; [reflexivity|]. left. auto. }
  unfold bind at 1, lift at 1 in Hraise.
  destruct (image_open env image_data) as [image_rgb|e0].
  2: { injection Hraise as <- <-. split; [reflexivity|]. right. left. auto. }
  destruct (shape env image_rgb) as [h wd].
  unfold bind at 1, lift at 1 in Hraise.
  destruct (unpack4 bbox) as [[[[x1 y1] x2] y2]|e0].
  2: { injection Hraise as <- <-. split; [reflexivity|].
       right. right. left. auto. }
  unfold bind at 1, lift at 1 in Hraise.
  destruct (midpoint env x1 x2) as [c1|e0] eqn:E1.
  2: { injection Hraise as <- <-. split; [reflexivity|].
       right. right. right. exists x1, y1, x2, y2. auto. }
  unfold bind at 1, lift at 1 in Hraise.
  destruct (midpoint env y1 y2) as [c2|e0] eqn:E2.
  2: { injection Hraise as <- <-. split; [reflexivity|].
       right. right. right. exists x1, y1, x2, y2. auto. }
  unfold try_except, ret in Hraise.
  destruct (segment_try env p image_rgb [x1; y1; x2; y2] w) as [[m|e0] w1];
    discriminate Hraise.
Qed.





End SegmenterExtras.

Lemma segment_raises_before_predictor_witness :
  let self := Segmenter.mk "cpu" (Some tt) in
  let bbox := VList [VFloat 10; VFloat 20; VFloat 110] in
  let e := Exn ValueError "not enough values to unpack (expected 4)" in
  Segmenter.segment working_sam self [1; 2; 3] bbox tt = (Raise e, tt)
  /\ tt = tt
  /\ ((Segmenter.predictor self = None
       /\ e = Exn RuntimeError "SAM2 predictor not loaded")
      \/ Segmenter.image_open working_sam [1; 2; 3] = Raise e
      \/ Segmenter.unpack4 bbox = Raise e
      \/ exists x1 y1 x2 y2,
           Segmenter.unpack4 bbox = Ok (x1, y1, x2, y2)
           /\ (Segmenter.midpoint working_sam x1 x2 = Raise e
               \/ Segmenter.midpoint working_sam y1 y2 = Raise e)).
Proof.
  intros self bbox e. split; [reflexivity|].
  exact (segment_raises_before_predictor working_sam self [1; 2; 3] bbox
           tt tt e eq_refl).
Defined.


(** ** inference/segmenter.py: the constructor *)

Module SegmenterLoad.

(** The object under construction. *)
Record state (SamModel Predictor : Type) : Type := mkState {
  device : string;
  model : option SamModel;
  predictor : option Predictor
}.
Arguments mkState {SamModel Predictor}.
Arguments device {SamModel Predictor}.
Arguments model {SamModel Predictor}.
Arguments predictor {SamModel Predictor}.

(** What the constructor reaches outside itself: the file system, the
    [sam2] and [segment_anything] packages.  [build_sam2 ckpt dev cfg]
    is the call with or without the [config] argument;
    [sam_vit_h ckpt] is [sam_model_registry["vit_h"](checkpoint=ckpt)];
    [sam_to sam dev] is [sam.to(device=dev)]. *)
Record Env (W SamModel Predictor : Type) : Type := mkEnv {
  cuda_is_available : bool;
  default_model_path : string;
  cfg_file : string;
  path_exists : string -> bool;
  import_sam2 : M W unit;
  build_sam2 : string -> string -> option string -> M W SamModel;
  SAM2ImagePredictor : SamModel -> M W Predictor;
  import_segment_anything : M W unit;
  sam_vit_h : string -> M W SamModel;
  sam_to : SamModel -> string -> M W unit;
  SamPredictor : SamModel -> M W Predictor
}.
Arguments cuda_is_available {W SamModel Predictor}.
Arguments default_model_path {W SamModel Predictor}.
Arguments cfg_file {W SamModel Predictor}.
Arguments path_exists {W SamModel Predictor}.
Arguments import_sam2 {W SamModel Predictor}.
Arguments build_sam2 {W SamModel Predictor}.
Arguments SAM2ImagePredictor {W SamModel Predictor}.
Arguments import_segment_anything {W SamModel Predictor}.
Arguments sam_vit_h {W SamModel Predictor}.
Arguments sam_to {W SamModel Predictor}.
Arguments SamPredictor {W SamModel Predictor}.

Section Constructor.
Context {W SamModel Predictor : Type} (env : Env W SamModel Predictor).

Definition world {A : Type} (c : M W A)
    : M (W * state SamModel Predictor) A :=
  fun s =>
    match c (fst s) with
    | (r, w') => (r, (w', snd s))
    end.

(** [self.model = m]. *)
Definition set_model (m : SamModel) : M (W * state SamModel Predictor) unit :=
  fun s =>
    (Ok tt, (fst s, mkState (device (snd s)) (Some m) (predictor (snd s)))).

(** [self.predictor = p]. *)
Definition set_predictor (p : Predictor)
    : M (W * state SamModel Predictor) unit :=
  fun s =>
    (Ok tt, (fst s, mkState (device (snd s)) (model (snd s)) (Some p))).

Definition get_device : M (W * state SamModel Predictor) string :=
  fun s => (Ok (device (snd s)), s).

Definition _detect_device : string :=
  if cuda_is_available env then "cuda" else "cpu".

(** Lines 58-80: the official SAM2; [true] when it returned, [false]
    after an [ImportError]. *)
Definition _load_sam2_official (model_path : string)
    : M (W * state SamModel Predictor) bool :=
  try_except
    (let* _ := world (import_sam2 env) in
     let* dev := get_device in
     let* sam2_model :=
       if negb (path_exists env (cfg_file env))
       then world (build_sam2 env model_path dev None)
       else world (build_sam2 env model_path dev (Some (cfg_file env))) in
     let* _ := set_model sam2_model in
     let* p := world (SAM2ImagePredictor env sam2_model) in
     let* _ := set_predictor p in
     ret true)
    (fun e => if is_class ImportError e then ret false else raise e).

(** Lines 83-102: SAM v1 as the alternative. *)
Definition _load_sam_v1 (model_path : string)
    : M (W * state SamModel Predictor) unit :=
  try_except
    (let* _ := world (import_segment_anything env) in
     let* sam := world (sam_vit_h env model_path) in
     let* dev := get_device in
     let* _ := world (sam_to env sam dev) in
     let* p := world (SamPredictor env sam) in
     let* _ := set_predictor p in
     set_model sam)
    (fun e =>
       if is_class ImportError e
       then raise (Exn ImportError
              ("SAM2 dependencies not installed. Install with:"
               +:+ String "010"%char
                 "pip install git+https://github.com/facebookresearch/segment-anything-2.git"))
       else raise e).

Definition _load_sam2 (model_path : string)
    : M (W * state SamModel Predictor) unit :=
  try_except
    (let* returned := _load_sam2_official model_path in
     if returned : bool then ret tt else _load_sam_v1 model_path)
    (fun e =>
       raise (Exn RuntimeError ("Failed to initialize SAM2: " +:+ str_exn e))).

(** [SAM2Segmenter(model_path)]. *)
Definition __init__ (model_path : option string)
    : M W (Segmenter.t Predictor) :=
  fun w =>
    let self := mkState _detect_device None None in
    let model_path := default (default_model_path env) model_path in
    if negb (path_exists env model_path)
    then
      (Raise (Exn FileNotFoundError
                ("SAM2 model not found at " +:+ model_path
                 +:+ ". Download from: https://github.com/facebookresearch/segment-anything-2")),
       w)
    else
      match _load_sam2 model_path (w, self) with
      | (Ok _, (w', self')) =>
          (Ok (Segmenter.mk (device self') (predictor self')), w')
      | (Raise e, (w', _)) => (Raise e, w')
      end.

End Constructor.

End SegmenterLoad.

Section SegmenterLoadFacts.
Context {W SamModel Predictor : Type}
  (env : SegmenterLoad.Env W SamModel Predictor).
Import SegmenterLoad.

(** A loader outcome: on success a predictor is set; the device is
    kept in every case. *)
Definition predictor_set (self : state SamModel Predictor) (B : Type)
    (ok : B -> bool) (r : result B * (W * state SamModel Predictor)) : Prop :=
  device (snd (snd r)) = device self
  /\ match fst r with
     | Ok b => ok b = true -> is_Some (predictor (snd (snd r)))
     | Raise _ => True
     end.

Lemma load_official_sets (model_path : string) s :
  predictor_set (snd s) bool (fun b => b)
    (_load_sam2_official env model_path s).
Proof.
  unfold predictor_set, _load_sam2_official, try_except, bind, world,
    set_model, set_predictor, get_device, raise, ret.
  destruct (import_sam2 env (fst s)) as [[[]|e] w1]; cbn [fst snd].
  - destruct (negb (path_exists env (cfg_file env))); cbn [fst snd];
      (match goal with
       | |- context [build_sam2 env ?a ?b ?c ?w] =>
           destruct (build_sam2 env a b c w) as [[m|e0] w2]
       end; cbn [fst snd];
       [destruct (SAM2ImagePredictor env m w2) as [[p|e0] w3]; cbn [fst snd];
        [split; [reflexivity|intros _; eexists; reflexivity]
        |destruct (is_class ImportError e0); cbn [fst snd];
         (split; [reflexivity|]); try exact I; discriminate]
       |destruct (is_class ImportError e0); cbn [fst snd];
        (split; [reflexivity|]); try exact I; discriminate]).
  - destruct (is_class ImportError e); cbn [fst snd];
      (split; [reflexivity|]); try exact I; discriminate.
Qed.

Lemma load_v1_sets (model_path : string) s :
  predictor_set (snd s) unit (fun _ => true) (_load_sam_v1 env model_path s).
Proof.
  unfold predictor_set, _load_sam_v1, try_except, bind, world,
    set_model, set_predictor, get_device, raise, ret.
  destruct (import_segment_anything env (fst s)) as [[[]|e] w1];
    cbn [fst snd].
  - destruct (sam_vit_h env model_path w1) as [[sam|e] w2]; cbn [fst snd].
    + destruct (sam_to env sam (device (snd s)) w2) as [[[]|e] w3];
        cbn [fst snd].
      * destruct (SamPredictor env sam w3) as [[p|e] w4]; cbn [fst snd].
        -- split; [reflexivity|]. intros _. eexists. reflexivity.
        -- destruct (is_class ImportError e); cbn [fst snd];
             (split; [reflexivity|exact I]).
      * destruct (is_class ImportError e); cbn [fst snd];
          (split; [reflexivity|exact I]).
    + destruct (is_class ImportError e); cbn [fst snd];
        (split; [reflexivity|exact I]).
  - destruct (is_class ImportError e); cbn [fst snd];
      (split; [reflexivity|exact I]).
Qed.

Lemma load_sam2_outcome (model_path : string) s :
  match _load_sam2 env model_path s with
  | (Ok _, s') =>
      device (snd s') = device (snd s) /\ is_Some (predictor (snd s'))
  | (Raise e, _) =>
      exists msg, e = Exn RuntimeError ("Failed to initialize SAM2: " +:+ msg)
  end.
Proof.
  unfold _load_sam2, try_except at 1, bind at 1.
  pose proof (load_official_sets model_path s) as [Hd Hp].
  destruct (_load_sam2_official env model_path s) as [[[|]|e] s1];
    cbn [fst snd] in *.
  - split; [exact Hd|exact (Hp eq_refl)].
  - pose proof (load_v1_sets model_path s1) as [Hd1 Hp1].
    destruct (_load_sam_v1 env model_path s1) as [[[]|e] s2];
      cbn [fst snd] in *.
    + split; [congruence|exact (Hp1 eq_refl)].
    + eexists. reflexivity.
  - eexists. reflexivity.
Qed.

Lemma segmenter_init_outcome (model_path : option string) (w : W) :
  match __init__ env model_path w with
  | (Ok self, _) =>
      Segmenter.is_ready self = true
      /\ Segmenter.device self
         = (if cuda_is_available env then "cuda" else "cpu")
      /\ path_exists env (default (default_model_path env) model_path) = true
  | (Raise e, w') =>
      (path_exists env (default (default_model_path env) model_path) = false
       /\ w' = w /\ is_class FileNotFoundError e = true)
      \/ (path_exists env (default (default_model_path env) model_path) = true
          /\ exists msg,
               e = Exn RuntimeError ("Failed to initialize SAM2: " +:+ msg))
  end.
Proof.
  unfold __init__.
  destruct (path_exists env (default (default_model_path env) model_path));
    cbn [negb].
  - match goal with
    | |- context [_load_sam2 env ?p ?s] =>
        pose proof (load_sam2_outcome p s) as H;
        destruct (_load_sam2 env p s) as [[[]|e] [w' self']]
    end; cbn [fst snd] in H.
    + destruct H as [Hd [p Hp]]. unfold Segmenter.is_ready.
      cbn [Segmenter.predictor Segmenter.device]. rewrite Hp, Hd.
      repeat split.
    + right. split; [reflexivity|exact H].
  - left. repeat split.
Qed.

(** X16. The constructor of the segmenter never returns a segmenter
    without a predictor: it returns a ready one, with the device
    chosen at construction, or it raises; a [FileNotFoundError] when
    the checkpoint file is missing, before anything is loaded, and
    otherwise a [RuntimeError] that wraps the cause. *)
Theorem segmenter_init_ready_or_raises (model_path : option string) (w : W) :
  (forall self w',
     __init__ env model_path w = (Ok self, w') ->
     Segmenter.is_ready self = true
     /\ Segmenter.device self
        = (if cuda_is_available env then "cuda" else "cpu"))
  /\ (forall e w',
        __init__ env model_path w = (Raise e, w') ->
        if path_exists env (default (default_model_path env) model_path)
        then exists msg,
               e = Exn RuntimeError ("Failed to initialize SAM2: " +:+ msg)
        else w' = w /\ is_class FileNotFoundError e = true)
  /\ (path_exists env (default (default_model_path env) model_path) = false ->
      exists e, __init__ env model_path w = (Raise e, w)).
Proof.
  pose proof (segmenter_init_outcome model_path w) as H.
  split; [|split].
  - intros self w' E. rewrite E in H. tauto.
  - intros e w' E. rewrite E in H.
    destruct H as [(-> & Hw & He)|(-> & Hm)]; auto.
  - intros Hp. unfold __init__. rewrite Hp. eexists. reflexivity.
Qed.

End SegmenterLoadFacts.

(** ** main.py: the other endpoints *)

Module Endpoints.

(** The response of [GET /health]. *)
Record health_response : Type := mkHealth {
  ok : bool;
  detector_loaded : bool;
  detector_model : option string;
  detector_device : option string;
  segmenter_loaded : bool
}.

Definition health {Model Predictor : Type}
    (detector : option (Detector.t Model))
    (segmenter : option (Segmenter.t Predictor)) : health_response :=
  mkHealth true
    (match detector with Some _ => true | None => false end)
    (match detector with Some d => Detector.model_name d | None => None end)
    (match detector with Some d => Some (Detector.device d) | None => None end)
    (match segmenter with Some _ => true | None => false end).

(** The response of [GET /classes]. *)
Definition get_classes : list string * Z :=
  (Mapper.get_all_classes, Z.of_nat (length Mapper.get_all_classes)).

End Endpoints.

Section ServiceExtras.
Context {W Model Image RawMask Predictor : Type}
  (yolo : Detector.Env W Model)
  (sam : Segmenter.Env W Image RawMask Predictor)
  (png_encode : Segmenter.mask -> result bytes).
Import Main.

Abbreviation handle := (Main.detect_waste yolo sam png_encode).

(** X17. [/detect] fails with an [HTTPException] and nothing else, in
    three ways: 503 when no detector is loaded; 400 when the image
    input is missing, does not decode or is empty; and 500, with the
    message of the cause after ["Detection failed: "], for whatever is
    raised once the detector has been called.  The first two leave
    the state of the models untouched. *)
Theorem detect_waste_status
    (detector : option (Detector.t Model))
    (segmenter : option (Segmenter.t Predictor))
    (req : request) (w w' : W) (e : exn)
    (Hraise : handle detector segmenter req w = (Raise e, w')) :
  (detector = None /\ w' = w
   /\ e = HTTPException 503 "Detector not loaded. Check server logs.")
  \/ (detector <> None /\ w' = w
      /\ ((read_image req = Raise e
           /\ exists detail, e = HTTPException 400 detail)
          \/ (read_image req = Ok []
              /\ e = HTTPException 400 "Failed to decode image")))
  \/ (detector <> None
      /\ exists b0 image_data cause,
           read_image req = Ok (b0 :: image_data)
           /\ e = HTTPException 500 ("Detection failed: " +:+ str_exn cause)).
Proof.
  unfold Main.detect_waste in Hraise.
  destruct detector as [det|].
  2: { injection Hraise as <- <-. left. auto. }
  right. unfold bind at 1, lift at 1 in Hraise.
  destruct (read_image req) as [[|b0 image_data]|e0] eqn:Er.
  - injection Hraise as <- <-. left. split; [discriminate|]. auto.
  - right. split; [discriminate|]. unfold try_except in Hraise.
    match type of Hraise with
    | (let (_, _) := ?c w in _) = _ => destruct (c w) as [[r|cause] w2]
    end; [discriminate|].
    injection Hraise as <- _. exists b0, image_data, cause. auto.
  - injection Hraise as <- <-. left. split; [discriminate|].
    split; [reflexivity|]. left. split; [reflexivity|].
    unfold read_image in Er. destruct (image req); [discriminate|].
    destruct (Str.truthy (image_base64 req)).
    + destruct (ImageIO.decode_image _); [discriminate|].
      injection Er as <-. eexists. reflexivity.
    + injection Er as <-. eexists. reflexivity.
Qed.

(** X18. Every successful response has [success] true and a [count]
    equal to the number of its detections, and it carries the
    ["masks"] key exactly when segmentation was requested and there
    is at least one detection. *)
Theorem detect_waste_response_shape
    (detector : option (Detector.t Model))
    (segmenter : option (Segmenter.t Predictor))
    (req : request) (w w' : W) (resp : response)
    (Hrun : handle detector segmenter req w = (Ok resp, w')) :
  success resp = true
  /\ count resp = Z.of_nat (length (detections resp))
  /\ (masks resp <> None
      <-> segmentation req = true /\ detections resp <> []).
Proof.
  destruct (detect_waste_ok_inv yolo sam png_encode _ _ _ _ _ _ Hrun)
    as (det & image_data & dets & w1 & _ & _ & Hcases).
  destruct Hcases as [(_ & -> & _)|(mapped & ms & Hne & Hmap & -> & _)];
    cbn [success count detections masks].
  - split; [reflexivity|]. split; [reflexivity|]. split.
    + intros H. destruct (H eq_refl).
    + intros [_ H]. destruct (H eq_refl).
  - split; [reflexivity|]. split; [reflexivity|].
    destruct (map_loop_spec _ _ Hmap) as [Hlen _].
    assert (Hm : mapped <> []).
    { intros ->. destruct dets; [exact (Hne eq_refl)|discriminate Hlen]. }
    destruct (segmentation req); split.
    + intros _. auto.
    + intros _. discriminate.
    + intros H. destruct (H eq_refl).
    + intros [H _]. discriminate H.
Qed.

(** The request with its [segmentation] flag replaced. *)
Definition with_segmentation (req : request) (flag : bool) : request :=
  mkRequest (image req) (image_base64 req) flag.

(** X19. The [segmentation] flag changes the masks and nothing else:
    the same request with and without it fails with the same error
    or succeeds with the same detections and count; and without the
    flag the response has no masks and the state of the models is the
    one the detector left, the segmenter not being called. *)
Theorem detect_waste_flag_independent
    (detector : option (Detector.t Model))
    (segmenter : option (Segmenter.t Predictor))
    (req : request) (w : W) :
  match handle detector segmenter (with_segmentation req false) w,
        handle detector segmenter (with_segmentation req true) w with
  | (Ok plain, w0), (Ok full, _) =>
      detections full = detections plain
      /\ count full = count plain
      /\ masks plain = None
      /\ forall det image_data,
           detector = Some det ->
           read_image req = Ok image_data ->
           w0 = snd (Detector.detect yolo det image_data w)
  | (Raise e0, _), (Raise e1, _) => e0 = e1
  | _, _ => False
  end.
Proof.
  assert (Hloop : forall seg image_data dets w1,
            exists ms w2,
              Main.segment_loop sam png_encode seg image_data dets w1
              = (Ok ms, w2)).
  { intros seg image_data dets w1.
    destruct (segment_loop_spec sam png_encode seg image_data dets w1)
      as (ms & Hfst & _).
    destruct (Main.segment_loop sam png_encode seg image_data dets w1)
      as [r w2].
    cbn [fst] in Hfst. subst r. exists ms, w2. reflexivity. }
  assert (Hcore : forall det b0 image_data,
            detector = Some det ->
            read_image req = Ok (b0 :: image_data) ->
            match handle detector segmenter (with_segmentation req false) w,
                  handle detector segmenter (with_segmentation req true) w with
            | (Ok plain, w0), (Ok full, _) =>
                detections full = detections plain
                /\ count full = count plain
                /\ masks plain = None
                /\ w0 = snd (Detector.detect yolo det (b0 :: image_data) w)
            | (Raise e0, _), (Raise e1, _) => e0 = e1
            | _, _ => False
            end).
  { intros det b0 image_data -> Hr.
    unfold Main.detect_waste, bind, lift, try_except, ret, raise.
    change (read_image (with_segmentation req false)) with (read_image req).
    change (read_image (with_segmentation req true)) with (read_image req).
    rewrite Hr. cbn [with_segmentation segmentation].
    destruct (Detector.detect yolo det (b0 :: image_data) w)
      as [[[|d0 dets]|e] w1]; try reflexivity.
    - cbn [detections count masks snd]. repeat split.
    - destruct (map_loop (d0 :: dets)) as [mapped|e]; [|reflexivity].
      destruct segmenter as [seg|].
      + destruct (Hloop seg (b0 :: image_data) (d0 :: dets) w1)
          as (ms & w2 & ->).
        cbn [detections count masks snd]. repeat split.
      + cbn [detections count masks snd]. repeat split. }
  destruct detector as [det|] eqn:Edet; [|reflexivity].
  destruct (read_image req) as [[|b0 image_data]|e0] eqn:Er.
  - unfold Main.detect_waste, bind, lift, raise.
    change (read_image (with_segmentation req false)) with (read_image req).
    change (read_image (with_segmentation req true)) with (read_image req).
    rewrite Er. reflexivity.
  - specialize (Hcore det b0 image_data eq_refl eq_refl).
    destruct (handle (Some det) segmenter (with_segmentation req false) w)
      as [[plain|e0] w0];
      destruct (handle (Some det) segmenter (with_segmentation req true) w)
        as [[full|e1] w2]; try exact Hcore.
    destruct Hcore as (H1 & H2 & H3 & H4). repeat split; try assumption.
    intros det' data' [= <-] [= <-]. exact H4.
  - unfold Main.detect_waste, bind, lift, raise.
    change (read_image (with_segmentation req false)) with (read_image req).
    change (read_image (with_segmentation req true)) with (read_image req).
    rewrite Er. reflexivity.
Qed.

End ServiceExtras.

Section ServiceComposition.
Context {W Model Image RawMask Predictor : Type}
  (yolo : Detector.Env W Model)
  (sam : Segmenter.Env W Image RawMask Predictor)
  (png_encode : Segmenter.mask -> result bytes).
Import Main.

Abbreviation handle' := (Main.detect_waste yolo sam png_encode).

(** The handler depends on the request through [read_image] and the
    flag only. *)
Lemma detect_waste_read_image detector segmenter (req1 req2 : request) w :
  read_image req1 = read_image req2 ->
  segmentation req1 = segmentation req2 ->
  handle' detector segmenter req1 w = handle' detector segmenter req2 w.
Proof.
  intros Hr Hs. unfold Main.detect_waste. rewrite Hr, Hs. reflexivity.
Qed.

(** X20. Sending an image as a base64 data URL is the same as
    uploading it: for every byte string and every comma-free prefix
    (["data:image/jpeg;base64"], as the test client builds it),
    [/detect] answers the form field as it answers the file with
    those bytes. *)
Theorem detect_waste_base64_as_file
    (detector : option (Detector.t Model))
    (segmenter : option (Segmenter.t Predictor))
    (b : bytes) (prefix filename : string) (flag : bool) (w : W)
    (Hb : Forall is_byte b)
    (Hprefix : Str.has_char ","%char prefix = false) :
  handle' detector segmenter
    (mkRequest None
       (Some (prefix +:+ String ","%char (Base64.b64encode b))) flag) w
  = handle' detector segmenter
      (mkRequest (Some (mkUpload filename b)) None flag) w.
Proof.
  apply detect_waste_read_image; [|reflexivity].
  unfold read_image. cbn [image image_base64 content].
  assert (Ht : Str.truthy
                 (Some (prefix +:+ String ","%char (Base64.b64encode b)))
               = true).
  { cbn [Str.truthy]. destruct prefix; reflexivity. }
  rewrite Ht.
  change (default ""
            (Some (prefix +:+ String ","%char (Base64.b64encode b))))
    with (prefix +:+ String ","%char (Base64.b64encode b)).
  rewrite (decode_image_skip_prefix prefix _ Hprefix
             (plain_no_comma _ (b64encode_plain b))).
  rewrite (decode_image_b64encode b Hb). reflexivity.
Qed.



(** X22. A mask of the response decodes to the PNG bytes it was made
    from: [encode_mask_to_base64] succeeds exactly when the PNG
    encoding does, and [decode_image] of its result gives those
    bytes back. *)
Theorem encode_mask_roundtrip (mask : Segmenter.mask) :
  match png_encode mask with
  | Ok mask_bytes =>
      Forall is_byte mask_bytes ->
      exists mask_b64,
        encode_mask_to_base64 png_encode mask = Ok mask_b64
        /\ ImageIO.decode_image mask_b64 = Ok mask_bytes
  | Raise e => encode_mask_to_base64 png_encode mask = Raise e
  end.
Proof.
  unfold encode_mask_to_base64.
  destruct (png_encode mask) as [mask_bytes|e]; [|reflexivity].
  intros Hb. eexists. split; [reflexivity|].
  change (ImageIO.encode_image_to_base64 mask_bytes "PNG")
    with ("data:image/png;base64" +:+ String ","%char
            (Base64.b64encode mask_bytes)).
  rewrite (decode_image_skip_prefix "data:image/png;base64" _ eq_refl
             (plain_no_comma _ (b64encode_plain mask_bytes))).
  exact (decode_image_b64encode mask_bytes Hb).
Qed.

(** X23. Detections that the adapter builds from model results are
    always served: if what [detect] returns is what lines 154-176
    build from some results, [/detect] answers 200 with one mapped
    detection per box, and fails only with the 500 of a class id
    missing from [names]. *)
Theorem detect_waste_parsed_detections
    (det : Detector.t Model) (segmenter : option (Segmenter.t Predictor))
    (req : request) (w w1 : W) (b0 : Z) (image_data : bytes)
    (names : option (gmap Z string))
    (results : list (option (list DetectorParse.box)))
    (Himage : read_image req = Ok (b0 :: image_data))
    (Hdetect :
       Detector.detect yolo det (b0 :: image_data) w
       = match DetectorParse.parse_results names results with
         | Ok dets => (Ok dets, w1)
         | Raise e => (Raise e, w1)
         end) :
  match DetectorParse.parse_results names results with
  | Ok dets =>
      exists resp w',
        handle' (Some det) segmenter req w = (Ok resp, w')
        /\ length (detections resp) = length dets
        /\ count resp = Z.of_nat (length dets)
  | Raise e =>
      handle' (Some det) segmenter req w
      = (Raise (HTTPException 500 ("Detection failed: " +:+ str_exn e)), w1)
  end.
Proof.
  pose proof (parse_results_outcome names results) as Hp.
  destruct (DetectorParse.parse_results names results) as [dets|e].
  2: { unfold Main.detect_waste, bind at 1, lift at 1. rewrite Himage.
       unfold try_except, bind at 1. rewrite Hdetect. reflexivity. }
  unfold Main.detect_waste, bind at 1, lift at 1. rewrite Himage.
  unfold try_except, bind at 1. rewrite Hdetect.
  destruct Hp as [Hwf _].
  destruct dets as [|d0 dets].
  { eexists. eexists. split; [reflexivity|]. split; reflexivity. }
  destruct (well_formed_map_loop _ Hwf) as [mapped Hm].
  destruct (map_loop_spec _ _ Hm) as [Hlen _].
  unfold bind at 1, lift at 1. rewrite Hm. unfold bind, ret.
  destruct (segmentation req).
  - destruct segmenter as [seg|].
    + destruct (segment_loop_spec sam png_encode seg (b0 :: image_data)
                  (d0 :: dets) w1) as (ms & Hfst & _).
      destruct (Main.segment_loop sam png_encode seg (b0 :: image_data)
                  (d0 :: dets) w1) as [r w2].
      cbn [fst] in Hfst. subst r.
      eexists. eexists. split; [reflexivity|].
      cbn [detections count]. split; congruence.
    + eexists. eexists. split; [reflexivity|].
      cbn [detections count]. split; congruence.
  - eexists. eexists. split; [reflexivity|].
    cbn [detections count]. split; congruence.
Qed.

End ServiceComposition.

Section Startup.
Context {W Model Image RawMask Predictor SamModel : Type}
  (yolo : Detector.Env W Model)
  (sam : Segmenter.Env W Image RawMask Predictor)
  (samload : SegmenterLoad.Env W SamModel Predictor)
  (png_encode : Segmenter.mask -> result bytes).
Import Main Endpoints.

(** X24. After startup the readiness that [/] and [/health] report
    is the truth about the globals: the detector is reported loaded
    exactly when its constructor succeeded, and then with the model
    name ["yolov10e"] or ["yolov8n"] and the device ["cuda"] or
    ["cpu"]; when it is not loaded the model and the device are null
    and [/detect] answers 503; and a segmenter reported loaded has a
    predictor. *)
Theorem startup_health (w : W) :
  let globals :=
    fst (lifespan yolo (SegmenterLoad.__init__ samload None) w) in
  let h := health (fst globals) (snd globals) in
  let r := root (fst globals) (snd globals) in
  ok h = true
  /\ detector_loaded h = detector_ready r
  /\ segmenter_loaded h = segmenter_ready r
  /\ (detector_loaded h = true
      <-> exists self w', Detector.__init__ yolo None w = (Ok self, w'))
  /\ (if detector_loaded h
      then (detector_model h = Some "yolov10e"
            \/ detector_model h = Some "yolov8n")
           /\ (detector_device h = Some "cuda"
               \/ detector_device h = Some "cpu")
      else detector_model h = None /\ detector_device h = None
           /\ forall req w0,
                Main.detect_waste yolo sam png_encode (fst globals)
                  (snd globals) req w0
                = (Raise (HTTPException 503
                            "Detector not loaded. Check server logs."), w0))
  /\ (segmenter_loaded h = true ->
      exists seg, snd globals = Some seg /\ Segmenter.is_ready seg = true).
Proof.
  unfold lifespan.
  pose proof (fun self w' => init_result yolo None w w' self) as Hinit.
  destruct (Detector.__init__ yolo None w) as [[self|e] w1].
  - destruct (Hinit self w1 eq_refl) as (m & name & -> & Hname & _).
    pose proof (segmenter_init_outcome samload None w1) as Hs.
    destruct (SegmenterLoad.__init__ samload None w1) as [[seg|e] w2];
      cbn.
    + repeat split; try reflexivity.
      * intros _. eexists; eexists; reflexivity.
      * destruct Hname as [-> | ->]; auto.
      * unfold Detector._detect_device.
        destruct (Detector.cuda_is_available yolo); auto.
      * intros _. exists seg. split; [reflexivity|tauto].
    + repeat split; try reflexivity.
      * intros _. eexists; eexists; reflexivity.
      * destruct Hname as [-> | ->]; auto.
      * unfold Detector._detect_device.
        destruct (Detector.cuda_is_available yolo); auto.
      * discriminate.
  - pose proof (segmenter_init_outcome samload None w1) as Hs.
    destruct (SegmenterLoad.__init__ samload None w1) as [[seg|e'] w2];
      cbn.
    + repeat split; try reflexivity; try discriminate.
      * intros (self & w' & H). discriminate H.
      * intros _. exists seg. split; [reflexivity|tauto].
    + repeat split; try reflexivity; try discriminate.
      intros (self & w' & H). discriminate H.
Qed.

End Startup.

(** ** The service properties on concrete services *)

Lemma detect_waste_status_witness :
  serve failing_yolo (Main.mkRequest (Some sample_file) None false)
  = (Raise (HTTPException 503 "Detector not loaded. Check server logs."), tt)
  /\ fst (startup failing_yolo) = None.
Proof.
  split; [reflexivity|].
  destruct (detect_waste_status failing_yolo failing_sam sample_png
              (fst (startup failing_yolo)) (snd (startup failing_yolo))
              (Main.mkRequest (Some sample_file) None false) tt tt
              (HTTPException 503 "Detector not loaded. Check server logs.")
              eq_refl)
    as [(Hn & _)|[(Hn & _)|(Hn & _)]].
  - exact Hn.
  - destruct (Hn eq_refl).
  - destruct (Hn eq_refl).
Defined.

Lemma detect_waste_response_shape_witness :
  match serve (working_yolo two_detections)
          (Main.mkRequest (Some sample_file) None true) with
  | (Ok resp, _) =>
      Main.success resp = true
      /\ Main.count resp = Z.of_nat (length (Main.detections resp))
      /\ (Main.masks resp <> None <-> true = true /\ Main.detections resp <> [])
  | (Raise _, _) => False
  end.
Proof.
  destruct (serve (working_yolo two_detections)
              (Main.mkRequest (Some sample_file) None true))
    as [[resp|e] w'] eqn:Hrun.
  - exact (detect_waste_response_shape (working_yolo two_detections)
             failing_sam sample_png _ _ _ _ _ _ Hrun).
  - vm_compute in Hrun. discriminate Hrun.
Defined.

Lemma detect_waste_base64_as_file_witness :
  Forall is_byte [255; 216; 255; 224]
  /\ serve (working_yolo two_detections)
       (Main.mkRequest None (Some "data:image/jpeg;base64,/9j/4A==") false)
     = serve (working_yolo two_detections)
         (Main.mkRequest (Some sample_file) None false).
Proof.
  assert (H : Forall is_byte [255; 216; 255; 224])
    by (repeat constructor; unfold is_byte; lia).
  split; [exact H|].
  exact (detect_waste_base64_as_file (working_yolo two_detections)
           failing_sam sample_png _ _ [255; 216; 255; 224]
           "data:image/jpeg;base64" "photo.jpg" false tt H eq_refl).
Defined.



Lemma encode_mask_roundtrip_witness :
  Forall is_byte [137; 80; 78; 71]
  /\ exists mask_b64,
       Main.encode_mask_to_base64 sample_png [[0; 1]; [1; 0]] = Ok mask_b64
       /\ ImageIO.decode_image mask_b64 = Ok [137; 80; 78; 71].
Proof.
  assert (H : Forall is_byte [137; 80; 78; 71])
    by (repeat constructor; unfold is_byte; lia).
  split; [exact H|].
  exact (encode_mask_roundtrip sample_png [[0; 1]; [1; 0]] H).
Defined.

(** What a model with the names [{39: "bottle"}] reports for one box
    of class 39, and for one box of a class it has no name for. *)
Definition sample_names : option (gmap Z string) :=
  Some (<[39 := "bottle"]> ∅).

Definition sample_results (cls : Z)
    : list (option (list DetectorParse.box)) :=
  [Some [DetectorParse.mkBox (1, 2, 3, 4)%float 0.5%float cls]].

Definition parsing_yolo (cls : Z) : Detector.Env unit unit :=
  {| Detector.cuda_is_available := false;
     Detector.default_model_path := "models/yolov10e.pt";
     Detector.path_exists := fun _ => false;
     Detector.import_YOLO := ret tt;
     Detector.YOLO := fun _ => ret tt;
     Detector.hasattr_names := fun _ => Ok true;
     Detector.import_YOLOv10 :=
       raise (Exn ImportError "cannot import name 'YOLOv10'");
     Detector.YOLOv10 := fun _ => ret tt;
     Detector.torch_load := fun _ _ => ret tt;
     Detector.infer :=
       fun _ _ _ _ _ =>
         lift (DetectorParse.parse_results sample_names (sample_results cls)) |}.

Lemma detect_waste_parsed_detections_witness :
  exists det,
    fst (startup (parsing_yolo 39)) = Some det
    /\ match DetectorParse.parse_results sample_names (sample_results 39) with
       | Ok dets =>
           exists resp w',
             Main.detect_waste (parsing_yolo 39) failing_sam sample_png
               (Some det) None (Main.mkRequest (Some sample_file) None true) tt
             = (Ok resp, w')
             /\ length (Main.detections resp) = length dets
             /\ Main.count resp = Z.of_nat (length dets)
       | Raise e =>
           Main.detect_waste (parsing_yolo 39) failing_sam sample_png
             (Some det) None (Main.mkRequest (Some sample_file) None true) tt
           = (Raise (HTTPException 500 ("Detection failed: " +:+ str_exn e)),
              tt)
       end.
Proof.
  eexists. split; [reflexivity|].
  apply (detect_waste_parsed_detections (parsing_yolo 39) failing_sam
           sample_png _ None (Main.mkRequest (Some sample_file) None true)
           tt tt 255 [216; 255; 224] sample_names (sample_results 39));
    reflexivity.
Defined.

(** A class id without a name makes the request fail. *)
Example detect_waste_unnamed_class :
  serve (parsing_yolo 40) (Main.mkRequest (Some sample_file) None true)
  = (Raise (HTTPException 500 "Detection failed: 40"), tt).
Proof. reflexivity. Qed.

(** ** main.py: [GET /classes] *)

Section ClassesEndpoint.
Import Mapper Endpoints.

(** Some key of the synonym table resolves to the category [c]. *)
Definition reachable (c : string) : bool :=
  existsb (fun kv => String.eqb (resolve_class (Str.lower (fst kv))) c)
    class_mapping.

Lemma classes_reachable (c : string) :
  In c get_all_classes ->
  exists label, resolve_class (Str.lower label) = c.
Proof.
  assert (Hall : forallb reachable get_all_classes = true)
    by (vm_compute; reflexivity).
  intros H. rewrite forallb_forall in Hall. specialize (Hall c H).
  unfold reachable in Hall. apply existsb_exists in Hall as (kv & _ & Hkv).
  exists (fst kv). apply String.eqb_eq. exact Hkv.
Qed.

(** X25. [/classes] lists the eight categories, each once, and they
    are exactly the classes that a mapped detection can carry: every
    class of a mapped detection is listed, and every listed class is
    the class of some detection. *)
Theorem get_classes_exact :
  snd get_classes = 8
  /\ NoDup (fst get_classes)
  /\ forall c,
       In c (fst get_classes)
       <-> exists det mapped,
             map_detection det = Ok mapped
             /\ mapped !! "class" = Some (VStr c).
Proof.
  split; [reflexivity|]. split.
  - unfold get_classes, fst, get_all_classes, disposal_instructions.
    cbn [map fst].
    repeat (constructor;
            [rewrite list_elem_of_In; cbn [In]; intros H;
             repeat (destruct H as [H|H]; [discriminate H|]); exact H|]).
    constructor.
  - intros c. unfold get_classes, fst. split.
    + intros Hin. destruct (classes_reachable c Hin) as [label <-].
      destruct (map_detection_class (<["class_name" := VStr label]> ∅) label)
        as (mapped & Hm & Hc & _).
      { apply det_get_insert_eq. }
      exists (<["class_name" := VStr label]> ∅), mapped. auto.
    + intros (det & mapped & Hm & Hc).
      destruct (det_get det "class_name" (VStr "")) as [|s| | |] eqn:Hname;
        try (unfold map_detection in Hm; rewrite Hname in Hm; discriminate Hm).
      destruct (map_detection_class det s Hname) as (mapped' & Hm' & Hc' & _).
      rewrite Hm in Hm'. injection Hm' as <-. rewrite Hc in Hc'.
      injection Hc' as ->. apply resolve_class_in_classes.
Qed.

End ClassesEndpoint.
